(** * Acuity invoice parser: a shallow embedding and its properties

    The development follows the two Python modules of the repository,
    [acuity_invoice_agent.py] (class [AcuityInvoiceAgent]) and
    [acuity_invoice_parser.py] (module-level functions).

    Modelling conventions.
    - A Python [str] is a Rocq [string] holding its UTF-8 encoding.  White
      space is Python's, that is Unicode's; case mapping follows Python on
      the ASCII letters, and text with other cased letters is outside the
      model; comparison is lexicographic on the bytes, which orders
      strings as Python's [<] orders them by code point.
    - A cell holds a Python int, a float, a bool, text, or nothing.  An
      int is unbounded: [float] of an int beyond the range of the floats
      raises OverflowError.  ([str] is taken to render every int: the
      ints a sheet is read into have at most 4300 digits, the width
      Python converts to and from text.)
    - A Python [float] is an exact rational ([Q]): the non-finite floats
      are outside the model, and sums and quotients are exact.  What
      rounding does to the sums of [aggregate_by_sku] is worked out apart,
      in [Float64], on binary64 numbers.  A nullable float is an
      [option Q], where [None] stands for both Python's [None] and pandas'
      [NaN], which pandas does not tell apart in a numeric column.
    - A raised exception is a value [Raise e] of [PyResult].
    - A [DataFrame] read from a sheet is the list of its rows, a row being
      the list of its cells; the [DataFrame] that [aggregate_by_sku] builds
      is the list of its records. *)

From Stdlib Require Import List String Ascii Bool Arith ZArith QArith Qround Lia.
From Stdlib Require Import Sorted Permutation DecimalString SpecFloat.
Import ListNotations.

Local Close Scope Q_scope.

(** ** Python values and exceptions *)

Inductive exn : Type :=
| IndexError
| ValueError
| TypeError
| OverflowError
| OSError (msg : string).   (* what [pd.read_excel] raises, with its message *)

Inductive PyResult (A : Type) : Type :=
| Ok (a : A)
| Raise (e : exn).

Arguments Ok {A} a.
Arguments Raise {A} e.

(** [str(e)].  IndexError is the one [iloc] raises and OverflowError the
    one [float] raises on an int; the ValueError and TypeError of [float]
    are caught where they are raised, so their text is never shown. *)
Definition exn_str (e : exn) : string :=
  match e with
  | IndexError => "single positional indexer is out-of-bounds"
  | ValueError => "could not convert string to float"
  | TypeError => "float() argument must be a string or a real number"
  | OverflowError => "int too large to convert to float"
  | OSError msg => msg
  end.

(** A cell of the sheet, as [pd.read_excel] delivers it.  An integer or
    a boolean of a column that pandas stores as [int64] or [bool] is read
    as a numpy scalar by [df.iloc[0]] and as a Python [int] or [bool] by
    [iterrows]; the two have the same text, float and truth value, and
    differ only under [isinstance]. *)
Inductive Cell : Type :=
| CNaN                    (* an empty cell: NaN, None or NaT *)
| CStr (s : string)       (* text *)
| CInt (n : Z)            (* a Python int, as wide as a sheet can hold *)
| CFloat (q : Q)          (* a float *)
| CBool (b : bool)        (* a Python bool *)
| CNpInt (n : Z)          (* an integer of an int64 column *)
| CNpBool (b : bool)      (* a boolean of a bool column *)
| CObj (repr : string).   (* any other scalar, e.g. a timestamp, with its str() *)

Definition Row : Type := list Cell.
Definition DataFrame : Type := list Row.

(** ** Python string methods

    A [str] is held as its UTF-8 encoding, one [ascii] per byte. *)

Module PyStr.

Definition byte_in (lo hi : nat) (c : ascii) : bool :=
  (lo <=? nat_of_ascii c) && (nat_of_ascii c <=? hi).

Definition byte_is (n : nat) (c : ascii) : bool := byte_in n n c.

(** The white space of [str.strip] is Unicode's.  On one byte: U+0009 to
    U+000D, U+001C to U+001F and the blank U+0020. *)
Definition isspace (c : ascii) : bool := byte_in 9 13 c || byte_in 28 32 c.

(** On two bytes: U+0085 (C2 85) and U+00A0 (C2 A0). *)
Definition isspace2 (c1 c2 : ascii) : bool :=
  byte_is 194 c1 && (byte_is 133 c2 || byte_is 160 c2).

(** On three bytes: U+1680 (E1 9A 80), U+2000 to U+200A (E2 80 80 to
    E2 80 8A), U+2028 and U+2029 (E2 80 A8, E2 80 A9), U+202F (E2 80 AF),
    U+205F (E2 81 9F) and U+3000 (E3 80 80). *)
Definition isspace3 (c1 c2 c3 : ascii) : bool :=
  (byte_is 225 c1 && byte_is 154 c2 && byte_is 128 c3)
  || (byte_is 226 c1 && byte_is 128 c2
      && (byte_in 128 138 c3 || byte_in 168 169 c3 || byte_is 175 c3))
  || (byte_is 226 c1 && byte_is 129 c2 && byte_is 159 c3)
  || (byte_is 227 c1 && byte_is 128 c2 && byte_is 128 c3).

(** [s.lstrip()]: white-space characters are dropped from the front. *)
Fixpoint lstrip (s : string) : string :=
  match s with
  | EmptyString => EmptyString
  | String c1 s1 =>
      if isspace c1 then lstrip s1
      else
        match s1 with
        | String c2 s2 =>
            if isspace2 c1 c2 then lstrip s2
            else
              match s2 with
              | String c3 s3 => if isspace3 c1 c2 c3 then lstrip s3 else s
              | EmptyString => s
              end
        | EmptyString => s
        end
  end.

(** A string of white space only. *)
Definition blank (s : string) : bool :=
  match lstrip s with
  | EmptyString => true
  | String _ _ => false
  end.

(** [s.rstrip()]: the string is cut where its white-space tail starts. *)
Fixpoint rstrip (s : string) : string :=
  match s with
  | EmptyString => EmptyString
  | String c s' => if blank s then EmptyString else String c (rstrip s')
  end.

Definition strip (s : string) : string := rstrip (lstrip s).

(** [s.upper()], on the ASCII letters. *)
Definition upper_char (c : ascii) : ascii :=
  let n := nat_of_ascii c in
  if (97 <=? n) && (n <=? 122) then ascii_of_nat (n - 32) else c.

Fixpoint upper (s : string) : string :=
  match s with
  | EmptyString => EmptyString
  | String c s' => String (upper_char c) (upper s')
  end.

(** [len(s)]: the number of characters, that is of bytes that do not
    continue a character (0x80 to 0xBF). *)
Fixpoint len (s : string) : nat :=
  match s with
  | EmptyString => 0
  | String c s' => if byte_in 128 191 c then len s' else S (len s')
  end.

End PyStr.

(** ** Dictionaries as association lists (insertion order kept) *)

Fixpoint dict_get {V : Type} (k : string) (d : list (string * V)) : option V :=
  match d with
  | [] => None
  | (k', v) :: d' => if String.eqb k' k then Some v else dict_get k d'
  end.

(** [d.get(k, default)] *)
Definition get_default {V : Type} (d : list (string * V)) (k : string) (default : V) : V :=
  match dict_get k d with
  | Some v => v
  | None => default
  end.

(** ** Sums of nullable floats *)

(** [x or 0] on a nullable float, and pandas' skipping of NaN in a sum. *)
Definition or0 (x : option Q) : Q :=
  match x with
  | Some q => q
  | None => 0%Q
  end.

(** [sum(...)]: a left fold from 0. *)
Definition py_sum (l : list Q) : Q := fold_left Qplus l 0%Q.

(** ** Group keys of [groupby]

    [df.groupby('sku')] is called with pandas' default [sort=True]: the
    groups are the distinct keys in ascending order. *)

Fixpoint insert_key (k : string) (ks : list string) : list string :=
  match ks with
  | [] => [k]
  | h :: t =>
      match String.compare k h with
      | Lt => k :: ks
      | Eq => ks
      | Gt => h :: insert_key k t
      end
  end.

Definition group_keys (col : list string) : list string :=
  fold_right insert_key [] col.

(** The keys in order of first appearance: what an unsorted grouping
    ([sort=False]) would produce.  Used for comparison only. *)
Fixpoint first_appearance (col : list string) : list string :=
  match col with
  | [] => []
  | k :: t => k :: filter (fun k' => negb (String.eqb k' k)) (first_appearance t)
  end.

(** [len(set(col))] *)
Definition count_distinct (col : list string) : nat :=
  List.length (nodup string_dec col).

(** ** Python built-ins on cells *)

Definition Qgt0 (q : Q) : bool :=
  match (0 ?= q)%Q with Lt => true | _ => false end.

Definition Qlt0 (q : Q) : bool :=
  match (q ?= 0)%Q with Lt => true | _ => false end.

(** [pd.isna] *)
Definition isna (c : Cell) : bool :=
  match c with
  | CNaN => true
  | _ => false
  end.

(** Truth value of a cell.  For an empty cell it depends on the marker
    ([None] is false, [NaN] is true); every test below joins it with
    [isna], so the choice made here is never observed. *)
Definition truthy (c : Cell) : bool :=
  match c with
  | CNaN => false
  | CStr s => negb (String.eqb s "")
  | CInt n | CNpInt n => negb (n =? 0)%Z
  | CFloat q => negb (Qeq_bool q 0%Q)
  | CBool b | CNpBool b => b
  | CObj _ => true
  end.

(** [float(n)] on an int raises OverflowError when [n] rounds to a float
    of magnitude 2^1024: from 2^1024 - 2^970 on. *)
Definition float_overflows (n : Z) : bool :=
  (2 ^ 1024 - 2 ^ 970 <=? Z.abs n)%Z.

Arguments float_overflows n : simpl never.

(** [str(n)] on an int: its decimal digits. *)
Definition str_of_int (n : Z) : string := NilZero.string_of_int (Z.to_int n).

Section Builtins.

(** [float(s)] on text: [None] when Python raises [ValueError]. *)
Variable float_of_str : string -> option Q.
(** [str(x)] on a float. *)
Variable str_of_num : Q -> string.

Definition py_str (c : Cell) : string :=
  match c with
  | CNaN => "nan"
  | CStr s => s
  | CInt n | CNpInt n => str_of_int n
  | CFloat q => str_of_num q
  | CBool true | CNpBool true => "True"
  | CBool false | CNpBool false => "False"
  | CObj r => r
  end.

(** [float(value)] on a cell that is not empty. *)
Definition py_float (c : Cell) : PyResult Q :=
  match c with
  | CNaN => Raise TypeError
  | CStr s =>
      match float_of_str s with
      | Some q => Ok q
      | None => Raise ValueError
      end
  | CInt n => if float_overflows n then Raise OverflowError else Ok (inject_Z n)
  | CNpInt n => Ok (inject_Z n)
  | CFloat q => Ok q
  | CBool true | CNpBool true => Ok 1%Q
  | CBool false | CNpBool false => Ok 0%Q
  | CObj _ => Raise TypeError
  end.

End Builtins.

(** [row.iloc[i]] *)
Definition iloc (row : Row) (i : nat) : PyResult Cell :=
  match nth_error row i with
  | Some c => Ok c
  | None => Raise IndexError
  end.

(** [round(x, 2)], to the nearest hundredth, ties to even. *)
Definition round_half_even (q : Q) : Z :=
  let f := Qfloor q in
  match (q - inject_Z f ?= 1 # 2)%Q with
  | Lt => f
  | Gt => (f + 1)%Z
  | Eq => if Z.even f then f else (f + 1)%Z
  end.

Definition py_round2 (q : Q) : Q :=
  (inject_Z (round_half_even (q * 100)) / 100)%Q.

(** A value of the summary dictionary. *)
Inductive SummaryVal : Type :=
| Count (n : nat)
| Amount (q : Q).

(** An entry of the [errors] list of the result. *)
Inductive ErrorEntry : Type :=
| ValidationIssue (line : nat) (errors : list string)
| ParseError (line : nat) (error : string).

Local Open Scope string_scope.
Local Open Scope list_scope.

(** Exceptions propagate through sequenced computations. *)
Definition bind {A B : Type} (m : PyResult A) (f : A -> PyResult B) : PyResult B :=
  match m with
  | Ok a => f a
  | Raise e => Raise e
  end.

Notation "x <- m ;; k" := (bind m (fun x => k))
  (at level 61, m at next level, right associativity).

(** [enumerate]-like pairing of each row with its index label
    (a [RangeIndex] starting at 0). *)
Definition iterrows (df : DataFrame) : list (nat * Row) :=
  combine (seq 0 (List.length df)) df.

(** * [acuity_invoice_agent.py]: class [AcuityInvoiceAgent] *)

Module Agent.

Import PyStr.

Definition COUNTRY_CODES : list (string * string) :=
  [ ("MEX", "MX"); ("USA", "US"); ("CAN", "CA"); ("CHN", "CN"); ("JPN", "JP");
    ("DEU", "DE"); ("GBR", "GB"); ("FRA", "FR"); ("ITA", "IT"); ("ESP", "ES");
    ("BRA", "BR"); ("IND", "IN"); ("KOR", "KR"); ("TWN", "TW"); ("THA", "TH");
    ("VNM", "VN"); ("MYS", "MY"); ("SGP", "SG"); ("IDN", "ID"); ("PHL", "PH") ].

Definition UNIT_CODES : list (string * string) :=
  [ ("PZS", "PCS"); ("PZA", "PCS"); ("KGS", "KG"); ("KGM", "KG");
    ("LBS", "LB"); ("MTS", "M"); ("MTR", "M"); ("LTS", "L");
    ("LTR", "L"); ("UNI", "EA"); ("CAJ", "CS"); ("PAR", "PR") ].

Definition COLUMN_MAP : list (string * nat) :=
  [ ("sku", 19); ("description", 23); ("hts", 42); ("country_of_origin", 38);
    ("quantity", 20); ("net_weight", 33); ("gross_weight", 34);
    ("unit_price", 25); ("value", 28); ("qty_unit", 21) ].

(** [self.COLUMN_MAP[field]], for the literal keys the code uses. *)
Definition column (field : string) : nat := get_default COLUMN_MAP field 0.

(** A line item: the dictionary built by [parse_file], and a record of
    the frame returned by [aggregate_by_sku]. *)
Record LineItem : Type := {
  line_number : nat;
  sku : string;
  description : string;
  hts : string;
  country_of_origin : string;
  quantity : option Q;
  qty_unit : string;
  net_weight : option Q;
  gross_weight : option Q;
  unit_price : option Q;
  value : option Q
}.

(** The [config] dictionary: a key is absent ([None]) or bound. *)
Record Config : Type := {
  cfg_validate : option bool;
  cfg_max_items : option (option Z)
}.

Definition empty_config : Config :=
  {| cfg_validate := None; cfg_max_items := None |}.

(** The attributes of the agent. *)
Record Self : Type := {
  validate : bool;
  max_items : option Z;
  metadata : list (string * Cell)
}.

Definition __init__ (config : option Config) : Self :=
  let config := match config with Some c => c | None => empty_config end in
  {| validate := match cfg_validate config with Some b => b | None => true end;
     max_items := match cfg_max_items config with Some m => m | None => None end;
     metadata := [] |}.

(** *** [aggregate_by_sku] *)

(** A record of the frame [df.groupby('sku', as_index=False).agg(agg_dict)]:
    the key and the columns of [agg_dict], nothing else.  The columns
    [unit_price] and [line_number] of the input are not in [agg_dict]. *)
Record AggRow : Type := {
  a_sku : string;
  a_quantity : Q;
  a_net_weight : Q;
  a_gross_weight : Q;
  a_value : Q;
  a_description : string;
  a_hts : string;
  a_country_of_origin : string;
  a_qty_unit : string
}.

Definition group (df : list LineItem) (k : string) : list LineItem :=
  filter (fun r => String.eqb (sku r) k) df.

(** ['sum'] over a group: empty entries are skipped, the sum starts at 0. *)
Definition agg_sum (col : LineItem -> option Q) (g : list LineItem) : Q :=
  py_sum (map (fun r => or0 (col r)) g).

(** ['first'] over a group, on a text column (never null here). *)
Definition agg_first (col : LineItem -> string) (g : list LineItem) : string :=
  match g with
  | r :: _ => col r
  | [] => ""
  end.

Definition agg_group (df : list LineItem) (k : string) : AggRow :=
  let g := group df k in
  {| a_sku := k;
     a_quantity := agg_sum quantity g;
     a_net_weight := agg_sum net_weight g;
     a_gross_weight := agg_sum gross_weight g;
     a_value := agg_sum value g;
     a_description := agg_first description g;
     a_hts := agg_first hts g;
     a_country_of_origin := agg_first country_of_origin g;
     a_qty_unit := agg_first qty_unit g |}.

Definition groupby_agg (df : list LineItem) : list AggRow :=
  map (agg_group df) (group_keys (map sku df)).

(** [aggregated.loc[mask, 'unit_price'] = value / quantity] with
    [mask = quantity > 0]: the assignment creates the column, which is
    NaN on the rows outside the mask. *)
Definition new_unit_price (r : AggRow) : option Q :=
  if Qgt0 (a_quantity r) then Some (a_value r / a_quantity r)%Q else None.

(** One record of [aggregated.to_dict('records')]. *)
Definition to_record (nr : nat * AggRow) : LineItem :=
  let (n, r) := nr in
  {| line_number := n;
     sku := a_sku r;
     description := a_description r;
     hts := a_hts r;
     country_of_origin := a_country_of_origin r;
     quantity := Some (a_quantity r);
     qty_unit := a_qty_unit r;
     net_weight := Some (a_net_weight r);
     gross_weight := Some (a_gross_weight r);
     unit_price := new_unit_price r;
     value := Some (a_value r) |}.

Definition aggregate_by_sku (line_items : list LineItem) : list LineItem :=
  match line_items with
  | [] => []
  | _ =>
      let aggregated := groupby_agg line_items in
      map to_record (combine (seq 1 (List.length aggregated)) aggregated)
  end.

(** *** [_validate_item] *)

Definition _validate_item (item : LineItem) : list string :=
  let errors := [] in
  let errors := if String.eqb (sku item) "" then errors ++ ["Missing SKU"] else errors in
  let errors := if String.eqb (hts item) "" then errors ++ ["Missing HTS code"] else errors in
  let errors := if String.eqb (country_of_origin item) ""
                then errors ++ ["Missing country of origin"] else errors in
  let errors := match quantity item with
                | None => errors ++ ["Missing quantity"]
                | Some q => if Qle_bool q 0%Q
                            then errors ++ ["Invalid quantity (must be > 0)"]
                            else errors
                end in
  let errors := match value item with
                | None => errors ++ ["Missing value"]
                | Some v => if Qlt0 v
                            then errors ++ ["Invalid value (must be >= 0)"]
                            else errors
                end in
  errors.

(** *** [_generate_summary] *)

Definition nonempty (s : string) : bool := negb (String.eqb s "").

Definition _generate_summary (items : list LineItem) : list (string * SummaryVal) :=
  match items with
  | [] => []
  | _ =>
      let total_qty := py_sum (map (fun item => or0 (quantity item)) items) in
      let total_value := py_sum (map (fun item => or0 (value item)) items) in
      let total_weight := py_sum (map (fun item => or0 (net_weight item)) items) in
      let unique_skus := count_distinct (map sku items) in
      let unique_hts := count_distinct (filter nonempty (map hts items)) in
      let unique_origins :=
        count_distinct (filter nonempty (map country_of_origin items)) in
      [ ("total_items", Count (List.length items));
        ("total_quantity", Amount (py_round2 total_qty));
        ("total_value", Amount (py_round2 total_value));
        ("total_weight_kg", Amount (py_round2 total_weight));
        ("unique_skus", Count unique_skus);
        ("unique_hts_codes", Count unique_hts);
        ("unique_origins", Count unique_origins) ]
  end.

(** *** Conversions, extraction and [parse_file] *)

(** The result envelope of [parse_file], without its timestamp. *)
Record Envelope : Type := {
  items : list LineItem;
  r_metadata : list (string * Cell);
  summary : list (string * SummaryVal);
  errors : list ErrorEntry;
  aggregated : bool
}.

Inductive ParseResult : Type :=
| Success (r : Envelope)
| Failure (error : string).

Definition limit_reached (self : Self) (line_items : list LineItem) : bool :=
  match max_items self with
  | None => false
  | Some n => negb (n =? 0)%Z && (n <=? Z.of_nat (List.length line_items))%Z
  end.

Section WithBuiltins.

Variable float_of_str : string -> option Q.
Variable str_of_num : Q -> string.

Let str := py_str str_of_num.
Let float := py_float float_of_str.

Definition convert_country_code (code : Cell) : string :=
  if negb (truthy code) || isna code then ""
  else
    let code := upper (strip (str code)) in
    if negb (len code =? 2)%nat then get_default COUNTRY_CODES code code else code.

Definition convert_unit (unit : Cell) : string :=
  if negb (truthy unit) || isna unit then ""
  else
    let unit := upper (strip (str unit)) in
    get_default UNIT_CODES unit unit.

Definition clean_numeric (value : Cell) : PyResult (option Q) :=
  if isna value then Ok None
  else
    match float value with
    | Ok q => Ok (Some q)
    | Raise ValueError | Raise TypeError => Ok None
    | Raise e => Raise e
    end.

Definition header_cols : list (string * nat) :=
  [ ("invoice_number", 1); ("pedimento", 0); ("cove", 2); ("date", 3);
    ("vendor", 7); ("incoterm", 14); ("currency", 15); ("total_value", 16) ]%nat.

(** [str(val) if not isinstance(val, (int, float)) else val], on a cell
    of [df.iloc[0]]: a Python int, float or bool is an instance, the numpy
    integers and booleans of a typed column are not. *)
Definition header_value (val : Cell) : Cell :=
  match val with
  | CInt _ | CFloat _ | CBool _ => val
  | _ => CStr (str val)
  end.

Definition extract_metadata (df : DataFrame) : list (string * Cell) :=
  match df with
  | [] => []
  | first_row :: _ =>
      fold_left
        (fun metadata kv =>
           let '(key, idx) := kv in
           match nth_error first_row idx with
           | Some val => if negb (isna val)
                         then metadata ++ [(key, header_value val)]
                         else metadata
           | None => metadata
           end)
        header_cols []
  end.

(** [str(row.iloc[i]).strip() if not pd.isna(row.iloc[i]) else ''] *)
Definition text_field (row : Row) (i : nat) : PyResult string :=
  c <- iloc row i ;;
  if negb (isna c) then c' <- iloc row i ;; Ok (strip (str c')) else Ok "".

Definition numeric_field (row : Row) (i : nat) : PyResult (option Q) :=
  c <- iloc row i ;; clean_numeric c.

(** The dictionary literal of the loop body, its entries evaluated in
    order. *)
Definition extract_item (idx : nat) (row : Row) (sku : Cell) : PyResult LineItem :=
  description <- text_field row (column "description") ;;
  hts <- text_field row (column "hts") ;;
  origin <- iloc row (column "country_of_origin") ;;
  quantity <- numeric_field row (column "quantity") ;;
  unit <- iloc row (column "qty_unit") ;;
  net_weight <- numeric_field row (column "net_weight") ;;
  gross_weight <- numeric_field row (column "gross_weight") ;;
  unit_price <- numeric_field row (column "unit_price") ;;
  value <- numeric_field row (column "value") ;;
  Ok {| line_number := idx + 1;
        sku := strip (str sku);
        description := description;
        hts := hts;
        country_of_origin := convert_country_code origin;
        quantity := quantity;
        qty_unit := convert_unit unit;
        net_weight := net_weight;
        gross_weight := gross_weight;
        unit_price := unit_price;
        value := value |}.

(** [pd.isna(sku) or str(sku).strip() == ''] *)
Definition no_sku (sku : Cell) : bool :=
  isna sku || String.eqb (strip (str sku)) "".

(** The [for idx, row in df.iterrows()] loop of [parse_file], on the
    rows still to visit and the two lists built so far.  An exception
    raised by reading the SKU cell leaves the loop; one raised while
    the item is built is caught and recorded. *)
Fixpoint row_loop (self : Self) (rows : list (nat * Row))
         (line_items : list LineItem) (errors : list ErrorEntry)
  : PyResult (list LineItem * list ErrorEntry) :=
  match rows with
  | [] => Ok (line_items, errors)
  | (idx, row) :: rest =>
      if limit_reached self line_items then Ok (line_items, errors)
      else
        sku <- iloc row (column "sku") ;;
        if no_sku sku then row_loop self rest line_items errors
        else
          match extract_item idx row sku with
          | Ok item =>
              let errors :=
                if validate self then
                  match _validate_item item with
                  | [] => errors
                  | validation_errors =>
                      errors ++ [ValidationIssue (idx + 1) validation_errors]
                  end
                else errors in
              row_loop self rest (line_items ++ [item]) errors
          | Raise e =>
              row_loop self rest line_items
                       (errors ++ [ParseError (idx + 1) ("Parse error: " ++ exn_str e)%string])
          end
  end.

Definition set_metadata (self : Self) (m : list (string * Cell)) : Self :=
  {| validate := validate self; max_items := max_items self; metadata := m |}.

(** [parse_file], given the outcome of [pd.read_excel] on the path.
    Returns the agent, whose [metadata] attribute is assigned, and the
    result. *)
Definition parse_file (self : Self) (file : PyResult DataFrame) (aggregate : bool)
  : Self * ParseResult :=
  match file with
  | Raise e => (self, Failure (exn_str e))
  | Ok df =>
      let self := set_metadata self (extract_metadata df) in
      match row_loop self (iterrows df) [] [] with
      | Raise e => (self, Failure (exn_str e))
      | Ok (line_items, errors) =>
          let line_items :=
            if aggregate then aggregate_by_sku line_items else line_items in
          (self,
           Success {| items := line_items;
                      r_metadata := metadata self;
                      summary := _generate_summary line_items;
                      errors := errors;
                      aggregated := aggregate |})
      end
  end.

End WithBuiltins.

End Agent.

(** * [acuity_invoice_parser.py]: module-level functions *)

Module Parser.

Import PyStr.

Definition COUNTRY_CODE_MAP : list (string * string) :=
  [ ("MEX", "MX"); ("USA", "US"); ("CAN", "CA"); ("CHN", "CN"); ("JPN", "JP");
    ("DEU", "DE"); ("GBR", "GB"); ("FRA", "FR"); ("ITA", "IT"); ("ESP", "ES");
    ("BRA", "BR"); ("IND", "IN"); ("KOR", "KR"); ("TWN", "TW"); ("THA", "TH");
    ("VNM", "VN"); ("MYS", "MY"); ("SGP", "SG"); ("IDN", "ID"); ("PHL", "PH") ].

Definition UNIT_CONVERSION_MAP : list (string * string) :=
  [ ("PZS", "PCS"); ("PZA", "PCS"); ("KGS", "KG"); ("KGM", "KG");
    ("LBS", "LB"); ("MTS", "M"); ("MTR", "M"); ("LTS", "L");
    ("LTR", "L"); ("UNI", "EA"); ("CAJ", "CS"); ("PAR", "PR") ].

Definition column_mapping : list (string * nat) :=
  [ ("sku", 19); ("description", 23); ("hts", 42); ("country_of_origin", 38);
    ("quantity", 20); ("net_weight", 33); ("gross_weight", 34);
    ("unit_price", 25); ("value", 28); ("qty_unit", 21) ]%nat.

Definition column (field : string) : nat := get_default column_mapping field 0%nat.

(** A line item, in the column order of the invoice template. *)
Record LineItem : Type := {
  sku : string;
  description : string;
  hts : string;
  country_of_origin : string;
  no_of_package : string;
  quantity : option Q;
  net_weight : option Q;
  gross_weight : option Q;
  unit_price : option Q;
  value : option Q;
  qty_unit : string;
  package_type : string;
  container_number : string;
  po_number : string;
  po_reference : string
}.

(** *** [aggregate_by_sku] *)

(** A record of the grouped frame: the key and the columns of
    [agg_dict]; [unit_price] is not one of them. *)
Record AggRow : Type := {
  a_sku : string;
  a_quantity : Q;
  a_net_weight : Q;
  a_gross_weight : Q;
  a_value : Q;
  a_description : string;
  a_hts : string;
  a_country_of_origin : string;
  a_qty_unit : string;
  a_no_of_package : string;
  a_package_type : string;
  a_container_number : string;
  a_po_number : string;
  a_po_reference : string
}.

Definition group (df : list LineItem) (k : string) : list LineItem :=
  filter (fun r => String.eqb (sku r) k) df.

Definition agg_sum (col : LineItem -> option Q) (g : list LineItem) : Q :=
  py_sum (map (fun r => or0 (col r)) g).

Definition agg_first (col : LineItem -> string) (g : list LineItem) : string :=
  match g with
  | r :: _ => col r
  | [] => ""
  end.

Definition agg_group (df : list LineItem) (k : string) : AggRow :=
  let g := group df k in
  {| a_sku := k;
     a_quantity := agg_sum quantity g;
     a_net_weight := agg_sum net_weight g;
     a_gross_weight := agg_sum gross_weight g;
     a_value := agg_sum value g;
     a_description := agg_first description g;
     a_hts := agg_first hts g;
     a_country_of_origin := agg_first country_of_origin g;
     a_qty_unit := agg_first qty_unit g;
     a_no_of_package := agg_first no_of_package g;
     a_package_type := agg_first package_type g;
     a_container_number := agg_first container_number g;
     a_po_number := agg_first po_number g;
     a_po_reference := agg_first po_reference g |}.

Definition groupby_agg (df : list LineItem) : list AggRow :=
  map (agg_group df) (group_keys (map sku df)).

Definition new_unit_price (r : AggRow) : option Q :=
  if Qgt0 (a_quantity r) then Some (a_value r / a_quantity r)%Q else None.

(** One record of the frame after its columns are put in template order. *)
Definition to_record (r : AggRow) : LineItem :=
  {| sku := a_sku r;
     description := a_description r;
     hts := a_hts r;
     country_of_origin := a_country_of_origin r;
     no_of_package := a_no_of_package r;
     quantity := Some (a_quantity r);
     net_weight := Some (a_net_weight r);
     gross_weight := Some (a_gross_weight r);
     unit_price := new_unit_price r;
     value := Some (a_value r);
     qty_unit := a_qty_unit r;
     package_type := a_package_type r;
     container_number := a_container_number r;
     po_number := a_po_number r;
     po_reference := a_po_reference r |}.

Definition aggregate_by_sku (line_items : list LineItem) : list LineItem :=
  match line_items with
  | [] => []
  | _ => map to_record (groupby_agg line_items)
  end.

Section WithBuiltins.

Variable float_of_str : string -> option Q.
Variable str_of_num : Q -> string.

Let str := py_str str_of_num.
Let float := py_float float_of_str.

Definition convert_country_code (country_code : Cell) : string :=
  if negb (truthy country_code) || isna country_code then ""
  else
    let code := upper (strip (str country_code)) in
    if (len code =? 2)%nat then code
    else get_default COUNTRY_CODE_MAP code code.

Definition convert_unit (unit : Cell) : string :=
  if negb (truthy unit) || isna unit then ""
  else
    let unit_upper := upper (strip (str unit)) in
    get_default UNIT_CONVERSION_MAP unit_upper unit_upper.

Definition clean_value (value : Cell) : PyResult (option Q) :=
  if isna value then Ok None
  else
    match float value with
    | Ok q => Ok (Some q)
    | Raise ValueError | Raise TypeError => Ok None
    | Raise e => Raise e
    end.

Definition text_field (row : Row) (i : nat) : PyResult string :=
  c <- iloc row i ;;
  if negb (isna c) then c' <- iloc row i ;; Ok (strip (str c')) else Ok "".

Definition numeric_field (row : Row) (i : nat) : PyResult (option Q) :=
  c <- iloc row i ;; clean_value c.

Definition extract_item (row : Row) (sku : Cell) : PyResult LineItem :=
  description <- text_field row (column "description") ;;
  hts <- text_field row (column "hts") ;;
  origin <- iloc row (column "country_of_origin") ;;
  quantity <- numeric_field row (column "quantity") ;;
  net_weight <- numeric_field row (column "net_weight") ;;
  gross_weight <- numeric_field row (column "gross_weight") ;;
  unit_price <- numeric_field row (column "unit_price") ;;
  value <- numeric_field row (column "value") ;;
  unit <- iloc row (column "qty_unit") ;;
  Ok {| sku := strip (str sku);
        description := description;
        hts := hts;
        country_of_origin := convert_country_code origin;
        no_of_package := "";
        quantity := quantity;
        net_weight := net_weight;
        gross_weight := gross_weight;
        unit_price := unit_price;
        value := value;
        qty_unit := convert_unit unit;
        package_type := "";
        container_number := "";
        po_number := "";
        po_reference := "" |}.

Definition no_sku (sku : Cell) : bool :=
  isna sku || String.eqb (strip (str sku)) "".

(** The row loop of [parse_acuity_invoice]: any exception leaves it. *)
Fixpoint row_loop (rows : list (nat * Row)) (line_items : list LineItem)
  : PyResult (list LineItem) :=
  match rows with
  | [] => Ok line_items
  | (_, row) :: rest =>
      sku <- iloc row (column "sku") ;;
      if no_sku sku then row_loop rest line_items
      else
        line_item <- extract_item row sku ;;
        row_loop rest (line_items ++ [line_item])
  end.

(** [parse_acuity_invoice], given the outcome of [pd.read_excel]; the
    exception it re-raises is the result [Raise e]. *)
Definition parse_acuity_invoice (file : PyResult DataFrame) (aggregate : bool)
  : PyResult (list LineItem) :=
  df <- file ;;
  line_items <- row_loop (iterrows df) [] ;;
  Ok (if aggregate then aggregate_by_sku line_items else line_items).

End WithBuiltins.

End Parser.

(** * The sums of [aggregate_by_sku] in binary64 arithmetic

    The modules above add exact rationals.  This one runs the summing
    part of [aggregate_by_sku], and the totals taken before and after it,
    with Python's floats: IEEE 754 binary64, each operation rounded to
    the nearest float, ties to even. *)

Module Float64.

Definition prec : Z := 53.
Definition emax : Z := 1024.

Definition float : Type := spec_float.

Definition zero : float := S754_zero false.
Definition add (x y : float) : float := SFadd prec emax x y.
Definition sub (x y : float) : float := SFsub prec emax x y.
Definition div (x y : float) : float := SFdiv prec emax x y.

(** Python's [==] and [<=] on floats, and [fabs]. *)
Definition eqb (x y : float) : bool := SFeqb x y.
Definition leb (x y : float) : bool := SFleb x y.
Definition abs (x : float) : float := SFabs x.

Definition isnan (x : float) : bool :=
  match x with
  | S754_nan => true
  | _ => false
  end.

(** The float of an integer, and the float nearest to the fraction
    [n / d]: what Python reads the literal [0.1] as, for [1] and [10]. *)
Definition of_Z (n : Z) : float := binary_normalize prec emax n 0 false.
Definition of_ratio (n d : Z) : float := div (of_Z n) (of_Z d).

(** [x or 0] on a nullable float: null and zero give 0, NaN stays. *)
Definition or0 (x : option float) : float :=
  match x with
  | Some f => if eqb f zero then zero else f
  | None => zero
  end.

(** [sum(...)] as Python computes it up to version 3.11: a left fold
    from 0. *)
Definition py_sum (l : list float) : float := fold_left add l zero.

(** [sum(...)] as Python computes it on floats from version 3.12 on:
    Neumaier's compensated summation, the compensation added at the end
    when it is finite and not zero. *)
Fixpoint py_sum_compensated_from (f_result c : float) (l : list float) : float :=
  match l with
  | [] =>
      match c with
      | S754_finite _ _ _ => add f_result c
      | _ => f_result
      end
  | x :: l' =>
      let t := add f_result x in
      let c := if leb (abs x) (abs f_result)
               then add c (add (sub f_result t) x)
               else add c (add (sub x t) f_result) in
      py_sum_compensated_from t c l'
  end.

Definition py_sum_compensated (l : list float) : float :=
  py_sum_compensated_from zero zero l.



(** One summed column of the frame, each entry with the SKU of its row. *)
Definition Column : Type := list (string * option float).

(** The entries of a group that pandas adds: null and NaN are skipped. *)
Definition present (x : option float) : list float :=
  match x with
  | Some f => if isnan f then [] else [f]
  | None => []
  end.

Definition group (df : Column) (k : string) : list float :=
  flat_map (fun r => present (snd r))
           (filter (fun r => String.eqb (fst r) k) df).

(** ['sum'] over a group: pandas adds with Kahan's compensation, from 0. *)
Fixpoint group_sum_from (sumx compensation : float) (g : list float) : float :=
  match g with
  | [] => sumx
  | val :: g' =>
      let y := sub val compensation in
      let t := add sumx y in
      let c := sub (sub t sumx) y in
      group_sum_from t (if isnan c then zero else c) g'
  end.

Definition group_sum (g : list float) : float := group_sum_from zero zero g.

(** The column after [groupby('sku').agg('sum')]: one sum per SKU, the
    SKUs ascending. *)
Definition aggregate_by_sku (df : Column) : Column :=
  map (fun k => (k, Some (group_sum (group df k)))) (group_keys (map fst df)).

(** The amounts of a column, null counted as 0. *)
Definition amounts (df : Column) : list float := map (fun r => or0 (snd r)) df.

(** The amounts 0.1 under SKU "B" and 0.1 and 0.4 under SKU "A". *)
Definition sample_column : Column :=
  [ ("B", Some (of_ratio 1 10));
    ("A", Some (of_ratio 1 10));
    ("A", Some (of_ratio 4 10)) ].

End Float64.

(** * Properties as the specification words them

    Stated here for comparison with what the code computes. *)

(** The order on SKU strings used by the sorted grouping. *)
Definition str_lt (a b : string) : Prop := String.compare a b = Lt.

(** "Each group whose summed quantity is zero or negative keeps the
    unit_price it had before aggregation": the aggregated record carries
    the unit price of a member of its group. *)
Definition keeps_prior_unit_price (line_items : list Agent.LineItem) : Prop :=
  forall out,
    In out (Agent.aggregate_by_sku line_items) ->
    let g := Agent.group line_items (Agent.sku out) in
    (Agent.agg_sum Agent.quantity g <= 0)%Q ->
    exists m, In m g /\ Agent.unit_price out = Agent.unit_price m.





(** "Group emission order follows first-appearance order of each SKU". *)
Definition emits_in_first_appearance_order (line_items : list Agent.LineItem) : Prop :=
  map Agent.sku (Agent.aggregate_by_sku line_items)
  = first_appearance (map Agent.sku line_items).

(** "A ParseSummary with all numeric totals 0 and all counts 0". *)
Definition all_zero_summary (s : list (string * SummaryVal)) : Prop :=
  dict_get "total_items" s = Some (Count 0)
  /\ (exists q, dict_get "total_quantity" s = Some (Amount q) /\ (q == 0)%Q)
  /\ (exists q, dict_get "total_value" s = Some (Amount q) /\ (q == 0)%Q)
  /\ (exists q, dict_get "total_weight_kg" s = Some (Amount q) /\ (q == 0)%Q)
  /\ dict_get "unique_skus" s = Some (Count 0)
  /\ dict_get "unique_hts_codes" s = Some (Count 0)
  /\ dict_get "unique_origins" s = Some (Count 0).

(** The items of a result, none for a failure envelope. *)
Definition result_items (r : Agent.ParseResult) : list Agent.LineItem :=
  match r with
  | Agent.Success e => Agent.items e
  | Agent.Failure _ => []
  end.

(** A string that starts with a white-space character. *)
Definition leading_space (s : string) : bool :=
  match s with
  | String c1 s1 =>
      PyStr.isspace c1
      || match s1 with
         | String c2 s2 =>
             PyStr.isspace2 c1 c2
             || match s2 with
                | String c3 _ => PyStr.isspace3 c1 c2 c3
                | EmptyString => false
                end
         | EmptyString => false
         end
  | EmptyString => false
  end.

(** The item list of the outcome of the row loop. *)
Definition loop_items {E : Type} (r : PyResult (list Agent.LineItem * E))
  : PyResult (list Agent.LineItem) :=
  match r with
  | Ok (line_items, _) => Ok line_items
  | Raise e => Raise e
  end.

(** The [errors] list after a row that gave [item]: the validation step
    of the loop body. *)
Definition errors_after (self : Agent.Self) (idx : nat) (item : Agent.LineItem)
           (errors : list ErrorEntry) : list ErrorEntry :=
  if Agent.validate self then
    match Agent._validate_item item with
    | [] => errors
    | validation_errors => errors ++ [ValidationIssue (idx + 1) validation_errors]
    end
  else errors.


(** * Sample data for the worked examples *)

Definition sample_item (n : nat) (sku : string) (q up v : option Q) : Agent.LineItem :=
  {| Agent.line_number := n;
     Agent.sku := sku;
     Agent.description := "LED DRIVER";
     Agent.hts := "8504.40";
     Agent.country_of_origin := "MX";
     Agent.quantity := q;
     Agent.qty_unit := "PCS";
     Agent.net_weight := Some (1 # 2)%Q;
     Agent.gross_weight := Some (3 # 4)%Q;
     Agent.unit_price := up;
     Agent.value := v |}.

(** SKU "B-200" comes first and its quantities sum to 0; "A-100" has two
    lines. *)
Definition sample_items : list Agent.LineItem :=
  [ sample_item 1 "B-200" (Some 0%Q) (Some 5%Q) (Some 10%Q);
    sample_item 2 "A-100" (Some 10%Q) (Some 10%Q) (Some 100%Q);
    sample_item 3 "A-100" (Some 5%Q) (Some 8%Q) (Some 40%Q) ].

Definition sample_parser_item (sku : string) (q up v : option Q) : Parser.LineItem :=
  {| Parser.sku := sku;
     Parser.description := "LED DRIVER";
     Parser.hts := "8504.40";
     Parser.country_of_origin := "MX";
     Parser.no_of_package := "";
     Parser.quantity := q;
     Parser.net_weight := Some (1 # 2)%Q;
     Parser.gross_weight := Some (3 # 4)%Q;
     Parser.unit_price := up;
     Parser.value := v;
     Parser.qty_unit := "PCS";
     Parser.package_type := "";
     Parser.container_number := "";
     Parser.po_number := "";
     Parser.po_reference := "" |}.

Definition sample_parser_items : list Parser.LineItem :=
  [ sample_parser_item "B-200" (Some 0%Q) (Some 5%Q) (Some 10%Q);
    sample_parser_item "A-100" (Some 10%Q) (Some 10%Q) (Some 100%Q);
    sample_parser_item "A-100" (Some 5%Q) (Some 8%Q) (Some 40%Q) ].

(** The two records [Agent.aggregate_by_sku] returns on [sample_items]. *)
Definition sample_out_A : Agent.LineItem :=
  {| Agent.line_number := 1;
     Agent.sku := "A-100";
     Agent.description := "LED DRIVER";
     Agent.hts := "8504.40";
     Agent.country_of_origin := "MX";
     Agent.quantity := Some 15%Q;
     Agent.qty_unit := "PCS";
     Agent.net_weight := Some ((1 # 2) + (1 # 2))%Q;
     Agent.gross_weight := Some ((3 # 4) + (3 # 4))%Q;
     Agent.unit_price := Some (140 / 15)%Q;
     Agent.value := Some 140%Q |}.

Definition sample_out_B : Agent.LineItem :=
  {| Agent.line_number := 2;
     Agent.sku := "B-200";
     Agent.description := "LED DRIVER";
     Agent.hts := "8504.40";
     Agent.country_of_origin := "MX";
     Agent.quantity := Some 0%Q;
     Agent.qty_unit := "PCS";
     Agent.net_weight := Some (1 # 2)%Q;
     Agent.gross_weight := Some (3 # 4)%Q;
     Agent.unit_price := None;
     Agent.value := Some 10%Q |}.

(** Stand-ins for Python's [float] and [str] in the examples: [float] on
    an unsigned decimal integer and on text without digits, [str] on a
    float whose value is an integer. *)
Fixpoint digits_value (s : string) (acc : Z) : option Z :=
  match s with
  | EmptyString => Some acc
  | String c s' =>
      let n := nat_of_ascii c in
      if (48 <=? n)%nat && (n <=? 57)%nat
      then digits_value s' (10 * acc + Z.of_nat (n - 48))%Z
      else None
  end.

Definition float_of_digits (s : string) : option Q :=
  match s with
  | EmptyString => None
  | _ => option_map inject_Z (digits_value s 0%Z)
  end.

Definition str_of_integer (q : Q) : string :=
  (NilZero.string_of_int (Z.to_int (Qfloor q)) ++ ".0")%string.

(** A row of 43 cells with the given SKU, origin, quantity, unit and value. *)
Definition sample_row (sku origin qty unit value : Cell) : Row :=
  map (fun i =>
         if i =? 19 then sku
         else if i =? 20 then qty
         else if i =? 21 then unit
         else if i =? 23 then CStr "LED DRIVER"
         else if i =? 25 then CInt 10
         else if i =? 28 then value
         else if i =? 33 then CFloat (1 # 2)%Q
         else if i =? 34 then CFloat (3 # 4)%Q
         else if i =? 38 then origin
         else if i =? 42 then CStr "8504.40"
         else CNaN)%nat
      (seq 0 43).

Definition sample_blank_row : Row := sample_row CNaN CNaN CNaN CNaN CNaN.

Definition sample_bad_quantity_row : Row :=
  sample_row (CStr "XYZ-9") (CStr "US") (CStr "N/A") (CStr "kgs") (CInt 40).

(** Two lines of SKU "ABC123", a blank separator row, and a line whose
    quantity is the text "N/A". *)
Definition sample_frame : DataFrame :=
  [ sample_row (CStr "ABC123") (CStr "MEX") (CInt 10) (CStr "PZS") (CInt 100);
    sample_blank_row;
    sample_bad_quantity_row;
    sample_row (CStr " ABC123 ") (CStr "mex") (CInt 5) (CStr "PZS") (CInt 40) ].


(** A line whose quantity is the int 10^400. *)
Definition sample_huge_quantity_row : Row :=
  sample_row (CStr "BIG-1") (CStr "MEX") (CInt (10 ^ 400)) (CStr "PZS") (CInt 40).

(** The item extracted from [sample_bad_quantity_row] at index 2. *)
Definition sample_bad_quantity_item : Agent.LineItem :=
  {| Agent.line_number := 3;
     Agent.sku := "XYZ-9";
     Agent.description := "LED DRIVER";
     Agent.hts := "8504.40";
     Agent.country_of_origin := "US";
     Agent.quantity := None;
     Agent.qty_unit := "KG";
     Agent.net_weight := Some (1 # 2)%Q;
     Agent.gross_weight := Some (3 # 4)%Q;
     Agent.unit_price := Some 10%Q;
     Agent.value := Some 40%Q |}.

Definition sample_config (n : Z) : Agent.Config :=
  {| Agent.cfg_validate := Some true; Agent.cfg_max_items := Some (Some n) |}.

(** * Definitions for the further properties *)

(** The float a cell cleans to: what [clean_numeric] returns, when it
    returns. *)
Definition clean_cell (float_of_str : string -> option Q) (c : Cell) : option Q :=
  if isna c then None
  else
    match py_float float_of_str c with
    | Ok q => Some q
    | Raise _ => None
    end.

(** A cell on which [float] raises OverflowError: an int beyond the
    range of the floats. *)
Definition overflows (c : Cell) : bool :=
  match c with
  | CInt n => float_overflows n
  | _ => false
  end.

(** The columns of the five numeric fields, in the order [parse_file]
    reads them: quantity, net_weight, gross_weight, unit_price, value. *)
Definition numeric_columns : list nat := [20; 33; 34; 25; 28].

(** A row with an out-of-range int in a numeric field. *)
Definition overflowing_row (row : Row) : bool :=
  existsb (fun i => overflows (nth i row CNaN)) numeric_columns.

(** An agent item as the command-line parser builds it: no line number,
    and the template columns the sheet does not provide left blank. *)
Definition to_parser_item (it : Agent.LineItem) : Parser.LineItem :=
  {| Parser.sku := Agent.sku it;
     Parser.description := Agent.description it;
     Parser.hts := Agent.hts it;
     Parser.country_of_origin := Agent.country_of_origin it;
     Parser.no_of_package := "";
     Parser.quantity := Agent.quantity it;
     Parser.net_weight := Agent.net_weight it;
     Parser.gross_weight := Agent.gross_weight it;
     Parser.unit_price := Agent.unit_price it;
     Parser.value := Agent.value it;
     Parser.qty_unit := Agent.qty_unit it;
     Parser.package_type := "";
     Parser.container_number := "";
     Parser.po_number := "";
     Parser.po_reference := "" |}.

(** A string that [strip] and [upper] leave as it is. *)
Definition normalized (s : string) : Prop := PyStr.upper (PyStr.strip s) = s.

(** The text of a description or HTS cell:
    [str(c).strip() if not pd.isna(c) else '']. *)
Definition text_of (str_of_num : Q -> string) (c : Cell) : string :=
  if negb (isna c) then PyStr.strip (py_str str_of_num c) else "".

(** The item a row of at least 43 cells gives at index [idx], when no
    numeric field of the row makes [clean_numeric] raise. *)
Definition item_of_row (float_of_str : string -> option Q) (str_of_num : Q -> string)
           (idx : nat) (row : Row) (sku : Cell) : Agent.LineItem :=
  {| Agent.line_number := idx + 1;
     Agent.sku := PyStr.strip (py_str str_of_num sku);
     Agent.description := text_of str_of_num (nth 23 row CNaN);
     Agent.hts := text_of str_of_num (nth 42 row CNaN);
     Agent.country_of_origin :=
       Agent.convert_country_code str_of_num (nth 38 row CNaN);
     Agent.quantity := clean_cell float_of_str (nth 20 row CNaN);
     Agent.qty_unit := Agent.convert_unit str_of_num (nth 21 row CNaN);
     Agent.net_weight := clean_cell float_of_str (nth 33 row CNaN);
     Agent.gross_weight := clean_cell float_of_str (nth 34 row CNaN);
     Agent.unit_price := clean_cell float_of_str (nth 25 row CNaN);
     Agent.value := clean_cell float_of_str (nth 28 row CNaN) |}.



(** Applying a function to the value of a computation that returned. *)
Definition result_map {A B : Type} (f : A -> B) (r : PyResult A) : PyResult B :=
  match r with
  | Ok a => Ok (f a)
  | Raise e => Raise e
  end.

(** The number of failed extractions recorded in an errors list. *)
Definition count_parse_errors (errors : list ErrorEntry) : nat :=
  List.length
    (filter (fun e => match e with ParseError _ _ => true | _ => false end) errors).

(** The line an entry of the errors list is filed under. *)
Definition error_line (e : ErrorEntry) : nat :=
  match e with
  | ValidationIssue n _ => n
  | ParseError n _ => n
  end.

(** What holds of the text fields of every parsed item: the SKU is not
    empty and has no surrounding white space, and the two codes are
    stripped and upper-cased. *)
Definition item_ok (it : Agent.LineItem) : Prop :=
  Agent.sku it <> ""
  /\ PyStr.strip (Agent.sku it) = Agent.sku it
  /\ normalized (Agent.country_of_origin it)
  /\ normalized (Agent.qty_unit it).

(** The messages of the parse errors: the read of a cell out of the
    row's bounds, and the [float] of an out-of-range int. *)
Definition parse_error_messages : list string :=
  [ "Parse error: single positional indexer is out-of-bounds";
    "Parse error: int too large to convert to float" ].

(** What an entry of the errors list says about the items kept: a
    validation entry reports the non-empty findings of [_validate_item] on
    a kept item of that line; a parse error is filed under a line that
    gave no item, with one of the two messages. *)
Definition error_ok (self : Agent.Self) (its : list Agent.LineItem) (e : ErrorEntry)
  : Prop :=
  match e with
  | ValidationIssue n msgs =>
      Agent.validate self = true
      /\ msgs <> []
      /\ exists it, In it its /\ Agent.line_number it = n
                    /\ msgs = Agent._validate_item it
  | ParseError n msg =>
      (forall it, In it its -> Agent.line_number it <> n)
      /\ In msg parse_error_messages
  end.

(** Every kept item with findings has its entry in the errors list. *)
Definition issues_recorded (self : Agent.Self) (its : list Agent.LineItem)
           (errs : list ErrorEntry) : Prop :=
  Forall (fun it =>
            Agent.validate self = true ->
            Agent._validate_item it <> [] ->
            In (ValidationIssue (Agent.line_number it) (Agent._validate_item it)) errs)
         its.

(** The invariant of the row loop once the rows of index below [k] are
    done. *)
Definition loop_state_ok (self : Agent.Self) (k : nat)
           (its : list Agent.LineItem) (errs : list ErrorEntry) : Prop :=
  Forall (fun it => 1 <= Agent.line_number it <= k /\ item_ok it) its
  /\ StronglySorted lt (map Agent.line_number its)
  /\ Forall (fun e => 1 <= error_line e <= k /\ error_ok self its e) errs
  /\ StronglySorted lt (map error_line errs)
  /\ issues_recorded self its errs.

(** Equality of nullable floats, as numbers. *)
Definition opt_Qeq (a b : option Q) : Prop :=
  match a, b with
  | Some x, Some y => (x == y)%Q
  | None, None => True
  | _, _ => False
  end.

(** Two records with the same key, line number and numeric fields. *)
Definition totals_eqv (a b : Agent.LineItem) : Prop :=
  Agent.line_number a = Agent.line_number b
  /\ Agent.sku a = Agent.sku b
  /\ opt_Qeq (Agent.quantity a) (Agent.quantity b)
  /\ opt_Qeq (Agent.net_weight a) (Agent.net_weight b)
  /\ opt_Qeq (Agent.gross_weight a) (Agent.gross_weight b)
  /\ opt_Qeq (Agent.value a) (Agent.value b)
  /\ opt_Qeq (Agent.unit_price a) (Agent.unit_price b).

(** Two records that agree on every field. *)
Definition item_eqv (a b : Agent.LineItem) : Prop :=
  totals_eqv a b
  /\ Agent.description a = Agent.description b
  /\ Agent.hts a = Agent.hts b
  /\ Agent.country_of_origin a = Agent.country_of_origin b
  /\ Agent.qty_unit a = Agent.qty_unit b.

(** A row, with its index, whose SKU cell is not blank. *)
Definition has_sku (str_of_num : Q -> string) (ir : nat * Row) : bool :=
  negb (Agent.no_sku str_of_num (nth 19 (snd ir) CNaN)).

(** A row, with its index, that gives an item when it has at least 43
    cells: it has a SKU and no out-of-range int in a numeric field. *)
Definition gives_item (str_of_num : Q -> string) (ir : nat * Row) : bool :=
  has_sku str_of_num ir && negb (overflowing_row (snd ir)).

(** A row, with its index, that has a SKU and an out-of-range int in a
    numeric field. *)
Definition gives_overflow (str_of_num : Q -> string) (ir : nat * Row) : bool :=
  has_sku str_of_num ir && overflowing_row (snd ir).

(** The item of a row of at least 43 cells, with its index. *)
Definition row_item (float_of_str : string -> option Q) (str_of_num : Q -> string)
           (ir : nat * Row) : Agent.LineItem :=
  item_of_row float_of_str str_of_num (fst ir) (snd ir) (nth 19 (snd ir) CNaN).

(** The parse error recorded for a row, with its index, that is too
    narrow to extract. *)
Definition row_parse_error (ir : nat * Row) : ErrorEntry :=
  ParseError (fst ir + 1) "Parse error: single positional indexer is out-of-bounds".

(** The metadata value read at a column of the header row, if any. *)
Definition header_cell (str_of_num : Q -> string) (row : Row) (idx : nat)
  : option Cell :=
  match nth_error row idx with
  | Some val => if isna val then None else Some (Agent.header_value str_of_num val)
  | None => None
  end.

(** The result of parsing the sample frame with a default agent and no
    aggregation, and its envelope. *)
Definition sample_result : Agent.ParseResult :=
  snd (Agent.parse_file float_of_digits str_of_integer (Agent.__init__ None)
                        (Ok sample_frame) false).

Definition sample_envelope : Agent.Envelope :=
  match sample_result with
  | Agent.Success r => r
  | Agent.Failure _ =>
      {| Agent.items := []; Agent.r_metadata := []; Agent.summary := [];
         Agent.errors := []; Agent.aggregated := false |}
  end.

(** The sample frame cut to 25 columns: wide enough for the SKU, too
    narrow for the HTS code. *)
Definition sample_narrow_frame : DataFrame := map (firstn 25) sample_frame.

(** * [acuity_parser_ui.py]: preparing the export table *)

Module UI.

(** A JSON value of an item: text, or a number that may be null. *)
Inductive Val : Type :=
| VStr (s : string)
| VNum (q : option Q).

(** The value pandas puts where a record has no entry. *)
Definition NaN : Val := VNum None.

(** An item as the page posts it back: a dictionary. *)
Definition Item : Type := list (string * Val).

Definition EXPORT_COLUMN_ORDER : list string :=
  [ "sku"; "description"; "hts"; "country_of_origin"; "no_of_package";
    "quantity"; "net_weight"; "gross_weight"; "unit_price"; "value";
    "qty_unit"; "package_type"; "container_number"; "po_number"; "po_reference" ].

Definition EXPORT_COLUMN_NAMES : list (string * string) :=
  [ ("sku", "SKU"); ("description", "DESCRIPTION"); ("hts", "HTS");
    ("country_of_origin", "COUNTRY OF ORIGIN"); ("no_of_package", "NO. OF PACKAGE");
    ("quantity", "QUANTITY"); ("net_weight", "NET WEIGHT");
    ("gross_weight", "GROSS WEIGHT"); ("unit_price", "UNIT PRICE");
    ("value", "VALUE"); ("qty_unit", "QTY UNIT"); ("package_type", "PACKAGE TYPE");
    ("container_number", "CONTAINER NUMBER"); ("po_number", "PO NUMBER");
    ("po_reference", "PO REFERENCE") ].

(** A frame: its column labels and its rows, each row aligned with the
    labels. *)
Record Frame : Type := {
  columns : list string;
  rows : list (list Val)
}.

(** The keys of a run of dictionaries, each once, in order of first
    appearance. *)
Fixpoint unique_keys (seen : list string) (ks : list string) : list string :=
  match ks with
  | [] => []
  | k :: t =>
      if existsb (String.eqb k) seen then unique_keys seen t
      else k :: unique_keys (k :: seen) t
  end.

(** [pd.DataFrame(items)] on a list of dictionaries: one column per key,
    one row per dictionary, NaN where a dictionary lacks the key. *)
Definition DataFrame_of (items : list Item) : Frame :=
  let cols := unique_keys [] (flat_map (map fst) items) in
  {| columns := cols;
     rows := map (fun item => map (fun c => get_default item c NaN) cols) items |}.

(** [df[cols]], for labels that are columns of [df]. *)
Definition select (df : Frame) (cols : list string) : Frame :=
  {| columns := cols;
     rows := map (fun row =>
                    map (fun c => get_default (combine (columns df) row) c NaN) cols)
                 (rows df) |}.

(** [df.rename(columns=names)] *)
Definition rename (df : Frame) (names : list (string * string)) : Frame :=
  {| columns := map (fun c => get_default names c c) (columns df);
     rows := rows df |}.

Definition _prepare_export_df (items : list Item) : Frame :=
  let df := DataFrame_of items in
  let cols := filter (fun c => existsb (String.eqb c) (columns df)) EXPORT_COLUMN_ORDER in
  let df := select df cols in
  rename df EXPORT_COLUMN_NAMES.

End UI.

(** The dictionary of a parser item, as [parse_acuity_invoice] and
    [aggregate_by_sku] order its keys. *)
Definition to_dict (it : Parser.LineItem) : UI.Item :=
  [ ("sku", UI.VStr (Parser.sku it));
    ("description", UI.VStr (Parser.description it));
    ("hts", UI.VStr (Parser.hts it));
    ("country_of_origin", UI.VStr (Parser.country_of_origin it));
    ("no_of_package", UI.VStr (Parser.no_of_package it));
    ("quantity", UI.VNum (Parser.quantity it));
    ("net_weight", UI.VNum (Parser.net_weight it));
    ("gross_weight", UI.VNum (Parser.gross_weight it));
    ("unit_price", UI.VNum (Parser.unit_price it));
    ("value", UI.VNum (Parser.value it));
    ("qty_unit", UI.VStr (Parser.qty_unit it));
    ("package_type", UI.VStr (Parser.package_type it));
    ("container_number", UI.VStr (Parser.container_number it));
    ("po_number", UI.VStr (Parser.po_number it));
    ("po_reference", UI.VStr (Parser.po_reference it)) ].

(** The values of a parser item in template order. *)
Definition item_values (it : Parser.LineItem) : list UI.Val := map snd (to_dict it).

(** The display names of the template columns, in template order. *)
Definition export_header : list string :=
  [ "SKU"; "DESCRIPTION"; "HTS"; "COUNTRY OF ORIGIN"; "NO. OF PACKAGE";
    "QUANTITY"; "NET WEIGHT"; "GROSS WEIGHT"; "UNIT PRICE"; "VALUE";
    "QTY UNIT"; "PACKAGE TYPE"; "CONTAINER NUMBER"; "PO NUMBER"; "PO REFERENCE" ].

(** * Facts about the order on strings and the group keys *)

Section StringOrder.

Lemma ascii_compare_refl (c : ascii) : Ascii.compare c c = Eq.
Proof. unfold Ascii.compare. apply N.compare_refl. Qed.

Lemma ascii_compare_lt_trans (a b c : ascii) :
  Ascii.compare a b = Lt -> Ascii.compare b c = Lt -> Ascii.compare a c = Lt.
Proof.
  unfold Ascii.compare. rewrite !N.compare_lt_iff. apply N.lt_trans.
Qed.

Lemma str_lt_irrefl (s : string) : ~ str_lt s s.
Proof.
  unfold str_lt. induction s as [|c s IH]; simpl.
  - discriminate.
  - rewrite ascii_compare_refl. exact IH.
Qed.

Lemma str_lt_trans (a b c : string) : str_lt a b -> str_lt b c -> str_lt a c.
Proof.
  unfold str_lt. revert b c.
  induction a as [|x a IH]; intros [|y b] [|z c]; simpl; try discriminate; auto.
  destruct (Ascii.compare x y) eqn:Exy; try discriminate.
  - apply Ascii.compare_eq_iff in Exy. subst y.
    destruct (Ascii.compare x z); try discriminate; auto.
    apply IH.
  - intros _.
    destruct (Ascii.compare y z) eqn:Eyz; try discriminate.
    + apply Ascii.compare_eq_iff in Eyz. subst z. now rewrite Exy.
    + intros _. now rewrite (ascii_compare_lt_trans _ _ _ Exy Eyz).
Qed.

Lemma str_gt_lt (a b : string) : String.compare a b = Gt -> str_lt b a.
Proof.
  unfold str_lt. intros H. rewrite String.compare_antisym, H. reflexivity.
Qed.

End StringOrder.

Section GroupKeys.

Lemma insert_key_In (k x : string) (ks : list string) :
  In x (insert_key k ks) <-> x = k \/ In x ks.
Proof.
  induction ks as [|h t IH]; simpl.
  - intuition.
  - destruct (String.compare k h) eqn:E; simpl.
    + apply String.compare_eq_iff in E. subst h. intuition.
    + intuition.
    + rewrite IH. intuition.
Qed.

Lemma insert_key_sorted (k : string) (ks : list string) :
  StronglySorted str_lt ks -> StronglySorted str_lt (insert_key k ks).
Proof.
  induction 1 as [|h t Hs IH Hh]; simpl.
  - repeat constructor.
  - destruct (String.compare k h) eqn:E.
    + now constructor.
    + constructor; [now constructor|].
      constructor; [exact E|].
      eapply Forall_impl; [|exact Hh].
      intros x Hx. now apply str_lt_trans with h.
    + constructor; [exact IH|].
      apply Forall_forall. intros x Hx.
      apply insert_key_In in Hx. destruct Hx as [->|Hx].
      * now apply str_gt_lt.
      * rewrite Forall_forall in Hh. now apply Hh.
Qed.

Lemma group_keys_In (col : list string) (x : string) :
  In x (group_keys col) <-> In x col.
Proof.
  induction col as [|k t IH]; simpl; [tauto|].
  rewrite insert_key_In, IH. intuition.
Qed.

Lemma group_keys_sorted (col : list string) : StronglySorted str_lt (group_keys col).
Proof.
  induction col as [|k t IH]; simpl; [constructor|].
  now apply insert_key_sorted.
Qed.

Lemma sorted_NoDup (ks : list string) : StronglySorted str_lt ks -> NoDup ks.
Proof.
  induction 1 as [|h t Hs IH Hh]; constructor; auto.
  intros Hin. rewrite Forall_forall in Hh.
  exact (str_lt_irrefl _ (Hh _ Hin)).
Qed.

Lemma group_keys_NoDup (col : list string) : NoDup (group_keys col).
Proof. apply sorted_NoDup, group_keys_sorted. Qed.

Lemma insert_key_length (k : string) (ks : list string) :
  List.length (insert_key k ks) <= S (List.length ks).
Proof.
  induction ks as [|h t IH]; simpl; [lia|].
  destruct (String.compare k h); simpl; lia.
Qed.

Lemma group_keys_length (col : list string) :
  List.length (group_keys col) <= List.length col.
Proof.
  induction col as [|k t IH]; simpl; [lia|].
  pose proof (insert_key_length k (group_keys t)). lia.
Qed.

(** Two columns with the same elements have the same number of distinct
    values. *)
Lemma count_distinct_ext (l1 l2 : list string) :
  (forall x, In x l1 <-> In x l2) -> count_distinct l1 = count_distinct l2.
Proof.
  intros H. unfold count_distinct.
  apply Nat.le_antisymm; apply NoDup_incl_length; try apply NoDup_nodup;
    intros x Hx; apply nodup_In; apply nodup_In in Hx; now apply H.
Qed.

End GroupKeys.

(** * Facts about sums *)

Section Sums.

Local Open Scope Q_scope.

Lemma fold_left_Qplus (l : list Q) (x : Q) :
  fold_left Qplus l x == x + fold_left Qplus l 0.
Proof.
  revert x. induction l as [|a l IH]; intros x; simpl.
  - ring.
  - rewrite (IH (x + a)), (IH (0 + a)). ring.
Qed.

Lemma py_sum_cons (a : Q) (l : list Q) : py_sum (a :: l) == a + py_sum l.
Proof. unfold py_sum. simpl. rewrite fold_left_Qplus. ring. Qed.

Lemma py_sum_nil : py_sum [] == 0.
Proof. reflexivity. Qed.





Variable A : Type.
Variable key : A -> string.
Variable f : A -> Q.


End Sums.

Section Lists.

Lemma map_snd_combine_seq {A B : Type} (h : A -> B) (l : list A) (s : nat) :
  map (fun nr : nat * A => h (snd nr)) (combine (seq s (List.length l)) l) = map h l.
Proof.
  revert s. induction l as [|a l IH]; intros s; simpl; [reflexivity|].
  now rewrite IH.
Qed.

Lemma map_fst_combine_seq {A : Type} (l : list A) (s : nat) :
  map fst (combine (seq s (List.length l)) l) = seq s (List.length l).
Proof.
  revert s. induction l as [|a l IH]; intros s; simpl; [reflexivity|].
  now rewrite IH.
Qed.

Lemma length_combine_seq {A : Type} (l : list A) (s : nat) :
  List.length (combine (seq s (List.length l)) l) = List.length l.
Proof.
  rewrite length_combine, length_seq. apply Nat.min_id.
Qed.

End Lists.

(** * The aggregator of the agent *)

Section AgentAggregate.

Import Agent.
Local Open Scope Q_scope.

Lemma Qgt0_true (q : Q) : Qgt0 q = true <-> 0 < q.
Proof.
  unfold Qgt0. rewrite Qlt_alt. destruct (0 ?= q); split; congruence.
Qed.

Lemma Qgt0_false (q : Q) : Qgt0 q = false <-> q <= 0.
Proof.
  unfold Qgt0. rewrite Qle_alt, <- (Qcompare_antisym 0 q).
  destruct (0 ?= q); simpl; intuition congruence.
Qed.

Lemma agent_aggregate_unfold (l : list LineItem) :
  aggregate_by_sku l
  = map to_record (combine (seq 1 (List.length (groupby_agg l))) (groupby_agg l)).
Proof. destruct l; reflexivity. Qed.

(** Any column of the result that is read off the grouped record. *)
Lemma agent_aggregate_column {B : Type} (col : LineItem -> B) (acol : AggRow -> B)
      (l : list LineItem) :
  (forall n r, col (to_record (n, r)) = acol r) ->
  map col (aggregate_by_sku l)
  = map (fun k => acol (agg_group l k)) (group_keys (map sku l)).
Proof.
  intros H. rewrite agent_aggregate_unfold, map_map.
  rewrite (map_ext _ (fun nr => acol (snd nr))) by (intros [n r]; apply H).
  rewrite map_snd_combine_seq. unfold groupby_agg. now rewrite map_map.
Qed.

Lemma agent_aggregate_skus (l : list LineItem) :
  map sku (aggregate_by_sku l) = group_keys (map sku l).
Proof.
  rewrite (agent_aggregate_column sku a_sku) by reflexivity.
  simpl. apply map_id.
Qed.

Lemma agent_aggregate_length (l : list LineItem) :
  List.length (aggregate_by_sku l) = List.length (group_keys (map sku l)).
Proof. now rewrite <- agent_aggregate_skus, length_map. Qed.

Lemma agent_aggregate_line_numbers (l : list LineItem) :
  map line_number (aggregate_by_sku l) = seq 1 (List.length (aggregate_by_sku l)).
Proof.
  rewrite agent_aggregate_unfold at 1. rewrite map_map.
  rewrite (map_ext _ (fun nr => fst nr)) by (intros [n r]; reflexivity).
  rewrite map_fst_combine_seq.
  rewrite agent_aggregate_length. unfold groupby_agg. now rewrite length_map.
Qed.

Lemma agent_aggregate_In (l : list LineItem) (out : LineItem) :
  In out (aggregate_by_sku l) ->
  exists n, out = to_record (n, agg_group l (sku out)).
Proof.
  rewrite agent_aggregate_unfold. intros H.
  apply in_map_iff in H. destruct H as [[n r] [<- H]].
  apply in_combine_r in H. unfold groupby_agg in H.
  apply in_map_iff in H. destruct H as [k [<- _]].
  exists n. reflexivity.
Qed.

Lemma agent_unit_price (l : list LineItem) (out : LineItem) :
  In out (aggregate_by_sku l) ->
  let g := group l (sku out) in
  (0 < agg_sum quantity g ->
   unit_price out = Some (agg_sum value g / agg_sum quantity g))
  /\ (agg_sum quantity g <= 0 -> unit_price out = None).
Proof.
  intros H g. subst g. destruct (agent_aggregate_In _ _ H) as [n E].
  assert (Hup : unit_price out = new_unit_price (agg_group l (sku out)))
    by (rewrite E at 1; reflexivity).
  rewrite Hup. unfold new_unit_price. simpl.
  split; intros Hq.
  - apply Qgt0_true in Hq. now rewrite Hq.
  - apply Qgt0_false in Hq. now rewrite Hq.
Qed.


End AgentAggregate.

(** * The aggregator of the command-line parser *)

Section ParserAggregate.

Import Parser.
Local Open Scope Q_scope.

Lemma parser_aggregate_unfold (l : list LineItem) :
  aggregate_by_sku l = map to_record (groupby_agg l).
Proof. destruct l; reflexivity. Qed.



Lemma parser_unit_price (l : list LineItem) (out : LineItem) :
  In out (aggregate_by_sku l) ->
  let g := group l (sku out) in
  (0 < agg_sum quantity g ->
   unit_price out = Some (agg_sum value g / agg_sum quantity g))
  /\ (agg_sum quantity g <= 0 -> unit_price out = None).
Proof.
  intros H g. subst g. rewrite parser_aggregate_unfold in H.
  apply in_map_iff in H. destruct H as [r [<- H]].
  unfold groupby_agg in H. apply in_map_iff in H. destruct H as [k [<- _]].
  simpl. unfold new_unit_price. simpl.
  split; intros Hq.
  - apply Qgt0_true in Hq. now rewrite Hq.
  - apply Qgt0_false in Hq. now rewrite Hq.
Qed.


End ParserAggregate.

(** * Claims about aggregation *)

(** C1, as the code has it.  In both modules, a record returned by
    [aggregate_by_sku] has [unit_price] equal to the summed value of its
    SKU group divided by the summed quantity when that quantity is
    strictly positive; when the summed quantity is zero or negative its
    [unit_price] is empty (NaN): the grouped frame has no [unit_price]
    column, so no earlier unit price survives. *)
Theorem C1_unit_price_recomputed_or_empty :
  (forall (l : list Agent.LineItem) (out : Agent.LineItem),
      In out (Agent.aggregate_by_sku l) ->
      let g := Agent.group l (Agent.sku out) in
      (0 < Agent.agg_sum Agent.quantity g ->
       Agent.unit_price out
       = Some (Agent.agg_sum Agent.value g / Agent.agg_sum Agent.quantity g))%Q
      /\ (Agent.agg_sum Agent.quantity g <= 0 -> Agent.unit_price out = None)%Q)
  /\ (forall (l : list Parser.LineItem) (out : Parser.LineItem),
      In out (Parser.aggregate_by_sku l) ->
      let g := Parser.group l (Parser.sku out) in
      (0 < Parser.agg_sum Parser.quantity g ->
       Parser.unit_price out
       = Some (Parser.agg_sum Parser.value g / Parser.agg_sum Parser.quantity g))%Q
      /\ (Parser.agg_sum Parser.quantity g <= 0 -> Parser.unit_price out = None)%Q).
Proof.
  split.
  - exact agent_unit_price.
  - exact parser_unit_price.
Qed.

(** C1 at the sample: the "A-100" group sums to quantity 15 and value 140,
    and the "B-200" group sums to quantity 0. *)
Lemma C1_unit_price_witness :
  In sample_out_A (Agent.aggregate_by_sku sample_items)
  /\ In sample_out_B (Agent.aggregate_by_sku sample_items)
  /\ Agent.unit_price sample_out_A
     = Some (Agent.agg_sum Agent.value (Agent.group sample_items "A-100")
             / Agent.agg_sum Agent.quantity (Agent.group sample_items "A-100"))%Q
  /\ Agent.unit_price sample_out_B = None.
Proof.
  assert (HA : In sample_out_A (Agent.aggregate_by_sku sample_items))
    by (left; reflexivity).
  assert (HB : In sample_out_B (Agent.aggregate_by_sku sample_items))
    by (right; left; reflexivity).
  split; [exact HA|]. split; [exact HB|]. split.
  - apply (proj1 (proj1 C1_unit_price_recomputed_or_empty sample_items sample_out_A HA)).
    vm_compute. reflexivity.
  - apply (proj2 (proj1 C1_unit_price_recomputed_or_empty sample_items sample_out_B HB)).
    vm_compute. discriminate.
Defined.

(** C1 as worded fails: the only line of SKU "B-200" has quantity 0 and
    unit price 5, and the aggregated record has no unit price. *)
Lemma C1_prior_unit_price_not_kept : ~ keeps_prior_unit_price sample_items.
Proof.
  intros H.
  destruct (H sample_out_B) as [m [Hm E]].
  - right; left; reflexivity.
  - vm_compute. discriminate.
  - simpl in Hm. destruct Hm as [<-|[]]. discriminate E.
Qed.

(** C2, as the code has it.  [aggregate_by_sku] emits one record per
    distinct SKU of the input, in ascending order of the SKU strings (the
    grouping sorts its keys), and numbers the records 1, 2, 3, ... in that
    order. *)
Theorem C2_sorted_emission_order (l : list Agent.LineItem) :
  let out := Agent.aggregate_by_sku l in
  map Agent.sku out = group_keys (map Agent.sku l)
  /\ StronglySorted str_lt (map Agent.sku out)
  /\ NoDup (map Agent.sku out)
  /\ (forall k, In k (map Agent.sku out) <-> In k (map Agent.sku l))
  /\ map Agent.line_number out = seq 1 (List.length out).
Proof.
  intros out. subst out. rewrite agent_aggregate_skus.
  repeat split.
  - apply group_keys_sorted.
  - apply group_keys_NoDup.
  - apply group_keys_In.
  - apply group_keys_In.
  - apply agent_aggregate_line_numbers.
Qed.

(** C2 as worded fails: "B-200" appears first in the sample and is
    emitted second. *)
Lemma C2_not_first_appearance_order : ~ emits_in_first_appearance_order sample_items.
Proof.
  unfold emits_in_first_appearance_order. vm_compute. discriminate.
Qed.



(** The aggregated sample column and the two totals, as binary64
    numbers. *)
Example scenario_float_totals :
  Float64.aggregate_by_sku Float64.sample_column
  = [ ("A", Some (Float64.of_ratio 1 2)); ("B", Some (Float64.of_ratio 1 10)) ]
  /\ Float64.py_sum (Float64.amounts Float64.sample_column)
     = S754_finite false 5404319552844596 (-53)
  /\ Float64.py_sum (Float64.amounts (Float64.aggregate_by_sku Float64.sample_column))
     = S754_finite false 5404319552844595 (-53)
  /\ Float64.py_sum_compensated (Float64.amounts Float64.sample_column)
     = S754_finite false 5404319552844596 (-53)
  /\ Float64.py_sum_compensated
       (Float64.amounts (Float64.aggregate_by_sku Float64.sample_column))
     = S754_finite false 5404319552844595 (-53).
Proof. vm_compute. repeat split. Qed.

(** C4.  The output of [aggregate_by_sku] has no two records with the
    same SKU string, and it has as many distinct SKUs as the input. *)
Theorem C4_one_record_per_sku (l : list Agent.LineItem) :
  let out := Agent.aggregate_by_sku l in
  NoDup (map Agent.sku out)
  /\ count_distinct (map Agent.sku out) = count_distinct (map Agent.sku l)
  /\ List.length out = count_distinct (map Agent.sku l).
Proof.
  intros out. subst out. rewrite agent_aggregate_skus.
  assert (E : count_distinct (group_keys (map Agent.sku l))
              = count_distinct (map Agent.sku l))
    by (apply count_distinct_ext; intros x; apply group_keys_In).
  repeat split.
  - apply group_keys_NoDup.
  - exact E.
  - rewrite agent_aggregate_length, <- E. unfold count_distinct.
    now rewrite (nodup_fixed_point string_dec (group_keys_NoDup _)).
Qed.

(** * Facts about [strip] and [upper] *)

Section StripUpper.

Import PyStr.

Lemma upper_char_cases (c : ascii) :
  upper_char c = c
  \/ (byte_in 97 122 c = true /\ byte_in 65 90 (upper_char c) = true).
Proof.
  destruct c as [[] [] [] [] [] [] [] []];
    first [left; reflexivity | right; split; reflexivity].
Qed.

Lemma byte_in_upper (lo hi : nat) (c : ascii) :
  123 <= lo \/ hi < 65 ->
  byte_in lo hi (upper_char c) = byte_in lo hi c.
Proof.
  intros H. destruct (upper_char_cases c) as [E|[E1 E2]]; [now rewrite E|].
  unfold byte_in in *.
  apply andb_prop in E1, E2. destruct E1 as [A1 A2], E2 as [B1 B2].
  apply Nat.leb_le in A1, A2, B1, B2.
  transitivity false; [|symmetry]; apply andb_false_iff;
    destruct H as [H|H];
    first [left; apply Nat.leb_gt; lia | right; apply Nat.leb_gt; lia].
Qed.

Lemma isspace_upper_char (c : ascii) : isspace (upper_char c) = isspace c.
Proof. unfold isspace. now rewrite !byte_in_upper by lia. Qed.

Lemma isspace2_upper_char (c1 c2 : ascii) :
  isspace2 (upper_char c1) (upper_char c2) = isspace2 c1 c2.
Proof. unfold isspace2, byte_is. now rewrite !byte_in_upper by lia. Qed.

Lemma isspace3_upper_char (c1 c2 c3 : ascii) :
  isspace3 (upper_char c1) (upper_char c2) (upper_char c3) = isspace3 c1 c2 c3.
Proof. unfold isspace3, byte_is. now rewrite !byte_in_upper by lia. Qed.

Lemma upper_char_idem (c : ascii) : upper_char (upper_char c) = upper_char c.
Proof. destruct c as [[] [] [] [] [] [] [] []]; reflexivity. Qed.

Lemma upper_idem (s : string) : upper (upper s) = upper s.
Proof.
  induction s as [|c s IH]; simpl; [reflexivity|].
  now rewrite upper_char_idem, IH.
Qed.

(** An induction that reaches the tails [lstrip] recurses on. *)
Lemma string_ind3 (P : string -> Prop) :
  P "" ->
  (forall c1 s1, P s1 ->
     (forall c2 s2, s1 = String c2 s2 -> P s2) ->
     (forall c2 c3 s3, s1 = String c2 (String c3 s3) -> P s3) ->
     P (String c1 s1)) ->
  forall s, P s.
Proof.
  intros H0 H3 s.
  assert (A : P s /\ (forall c s', s = String c s' -> P s')
              /\ (forall c c' s', s = String c (String c' s') -> P s')).
  { induction s as [|c s (IH1 & IH2 & IH3)].
    - split; [exact H0|]. split; intros; discriminate.
    - split; [|split].
      + apply H3; trivial.
      + intros c0 s' [= _ <-]. exact IH1.
      + intros c0 c' s' [= _ E]. now apply (IH2 c'). }
  apply A.
Qed.

Lemma lstrip_fixed (s : string) : leading_space s = false -> lstrip s = s.
Proof.
  destruct s as [|c1 s1]; [reflexivity|]. cbn [lstrip leading_space].
  destruct (isspace c1); [discriminate|].
  destruct s1 as [|c2 s2]; [reflexivity|].
  destruct (isspace2 c1 c2); [discriminate|].
  destruct s2 as [|c3 s3]; [reflexivity|].
  now destruct (isspace3 c1 c2 c3).
Qed.

Lemma lstrip_leading_space (s : string) : leading_space (lstrip s) = false.
Proof.
  induction s as [|c1 s1 IH1 IH2 IH3] using string_ind3; [reflexivity|].
  cbn [lstrip].
  destruct (isspace c1) eqn:E1; [exact IH1|].
  destruct s1 as [|c2 s2]; [cbn [leading_space]; now rewrite E1|].
  destruct (isspace2 c1 c2) eqn:E2; [now apply (IH2 c2)|].
  destruct s2 as [|c3 s3]; [cbn [leading_space]; now rewrite E1, E2|].
  destruct (isspace3 c1 c2 c3) eqn:E3; [now apply (IH3 c2 c3)|].
  cbn [leading_space]. now rewrite E1, E2, E3.
Qed.

Lemma lstrip_idem (s : string) : lstrip (lstrip s) = lstrip s.
Proof. apply lstrip_fixed, lstrip_leading_space. Qed.

Lemma lstrip_upper (s : string) : lstrip (upper s) = upper (lstrip s).
Proof.
  induction s as [|c1 s1 IH1 IH2 IH3] using string_ind3; [reflexivity|].
  cbn [lstrip upper]. rewrite isspace_upper_char.
  destruct (isspace c1); [exact IH1|].
  destruct s1 as [|c2 s2]; [reflexivity|].
  cbn [upper]. rewrite isspace2_upper_char.
  destruct (isspace2 c1 c2); [now apply (IH2 c2)|].
  destruct s2 as [|c3 s3]; [reflexivity|].
  cbn [upper]. rewrite isspace3_upper_char.
  destruct (isspace3 c1 c2 c3); [now apply (IH3 c2 c3)|reflexivity].
Qed.

Lemma upper_empty (s : string) : upper s = "" <-> s = "".
Proof. destruct s; simpl; split; intros H; try reflexivity; discriminate. Qed.

Lemma blank_upper (s : string) : blank (upper s) = blank s.
Proof. unfold blank. rewrite lstrip_upper. now destruct (lstrip s). Qed.

Lemma rstrip_upper (s : string) : rstrip (upper s) = upper (rstrip s).
Proof.
  induction s as [|c s IH]; [reflexivity|].
  change (upper (String c s)) with (String (upper_char c) (upper s)).
  change (rstrip (String (upper_char c) (upper s)))
    with (if blank (String (upper_char c) (upper s)) then ""
          else String (upper_char c) (rstrip (upper s))).
  change (String (upper_char c) (upper s)) with (upper (String c s)).
  rewrite blank_upper, IH.
  change (rstrip (String c s))
    with (if blank (String c s) then "" else String c (rstrip s)).
  now destruct (blank (String c s)).
Qed.

Lemma strip_upper (s : string) : strip (upper s) = upper (strip s).
Proof. unfold strip. now rewrite lstrip_upper, rstrip_upper. Qed.

Lemma leading_space_app (p u : string) :
  leading_space p = true -> leading_space (p ++ u)%string = true.
Proof.
  destruct p as [|c1 [|c2 [|c3 p3]]]; cbn [leading_space append];
    try discriminate; rewrite ?orb_false_r.
  - now intros ->.
  - intros H. apply orb_prop in H. destruct H as [-> | ->]; [reflexivity|].
    destruct u; now rewrite ?orb_true_r.
  - trivial.
Qed.

(** White space in front of a string is stripped with it. *)
Lemma lstrip_app_blank (a u : string) :
  lstrip a = "" -> lstrip (a ++ u)%string = lstrip u.
Proof.
  induction a as [|c1 s1 IH1 IH2 IH3] using string_ind3; [reflexivity|].
  cbn [lstrip append].
  destruct (isspace c1); [exact IH1|].
  destruct s1 as [|c2 s2]; [discriminate|]. cbn [append].
  destruct (isspace2 c1 c2); [now apply (IH2 c2)|].
  destruct s2 as [|c3 s3]; [discriminate|]. cbn [append].
  destruct (isspace3 c1 c2 c3); [now apply (IH3 c2 c3)|discriminate].
Qed.

(** [rstrip] cuts a white-space tail off. *)
Lemma rstrip_tail (s : string) : exists u, s = (rstrip s ++ u)%string /\ lstrip u = "".
Proof.
  induction s as [|c s (u & E & B)].
  - exists "". now split.
  - change (rstrip (String c s))
      with (if blank (String c s) then "" else String c (rstrip s)).
    unfold blank. destruct (lstrip (String c s)) eqn:L.
    + exists (String c s). now split.
    + exists u. split; [|exact B]. simpl. now rewrite <- E.
Qed.

Lemma rstrip_idem (s : string) : rstrip (rstrip s) = rstrip s.
Proof.
  induction s as [|c s IH]; [reflexivity|].
  change (rstrip (String c s))
    with (if blank (String c s) then "" else String c (rstrip s)).
  destruct (blank (String c s)) eqn:B; [reflexivity|].
  change (rstrip (String c (rstrip s)))
    with (if blank (String c (rstrip s)) then "" else String c (rstrip (rstrip s))).
  rewrite IH.
  destruct (blank (String c (rstrip s))) eqn:B'; [|reflexivity].
  exfalso. destruct (rstrip_tail s) as (u & E & Hu).
  unfold blank in B, B'.
  destruct (lstrip (String c (rstrip s))) eqn:L; [|discriminate].
  pose proof (lstrip_app_blank _ u L) as A. simpl in A. rewrite <- E, Hu in A.
  simpl in B. rewrite A in B. discriminate.
Qed.

Lemma rstrip_leading_space (s : string) :
  leading_space s = false -> leading_space (rstrip s) = false.
Proof.
  intros H. destruct (rstrip_tail s) as (u & E & _).
  destruct (leading_space (rstrip s)) eqn:L; [|reflexivity].
  apply (leading_space_app _ u) in L. rewrite <- E in L. congruence.
Qed.

Lemma strip_idem (s : string) : strip (strip s) = strip s.
Proof.
  unfold strip.
  rewrite (lstrip_fixed _ (rstrip_leading_space _ (lstrip_leading_space s))).
  apply rstrip_idem.
Qed.

Lemma upper_strip_fixed (s : string) :
  upper (strip (upper (strip s))) = upper (strip s).
Proof. now rewrite strip_upper, strip_idem, upper_idem. Qed.

End StripUpper.

(** * Claims about the conversions *)

Section Conversions.

Import PyStr.

Variable float_of_str : string -> option Q.
Variable str_of_num : Q -> string.

Lemma get_default_cases (T : list (string * string)) (u : string) :
  get_default T u u = u \/ In (get_default T u u) (map snd T).
Proof.
  unfold get_default.
  induction T as [|[k v] T IH]; simpl; [now left|].
  destruct (String.eqb k u); [right; now left|].
  destruct IH as [IH|IH]; [now left|right; now right].
Qed.

Lemma country_codes_fixed :
  Forall (fun v => len v = 2 /\ upper (strip v) = v) (map snd Agent.COUNTRY_CODES).
Proof. repeat constructor. Qed.

(** On a text that stripping and upper-casing leave alone, the
    conversion is the length test and the table lookup. *)
Lemma agent_country_code_on_fixed (u : string) :
  upper (strip u) = u ->
  Agent.convert_country_code str_of_num (CStr u)
  = if (len u =? 2)%nat then u else get_default Agent.COUNTRY_CODES u u.
Proof.
  intros H. unfold Agent.convert_country_code. simpl.
  destruct (String.eqb_spec u "") as [->|Hne]; simpl; [reflexivity|].
  rewrite H. now destruct (len u =? 2)%nat.
Qed.

Lemma agent_country_code_idempotent (x : Cell) :
  Agent.convert_country_code str_of_num
    (CStr (Agent.convert_country_code str_of_num x))
  = Agent.convert_country_code str_of_num x.
Proof.
  unfold Agent.convert_country_code at 2 3.
  destruct (negb (truthy x) || isna x); [reflexivity|].
  set (u := upper (strip (py_str str_of_num x))).
  assert (Hu : upper (strip u) = u) by apply upper_strip_fixed.
  destruct (len u =? 2)%nat eqn:L; simpl.
  - rewrite (agent_country_code_on_fixed _ Hu). now rewrite L.
  - destruct (get_default_cases Agent.COUNTRY_CODES u) as [E|E].
    + rewrite E, (agent_country_code_on_fixed _ Hu). now rewrite L.
    + pose proof country_codes_fixed as F. rewrite Forall_forall in F.
      destruct (F _ E) as [L2 Hv].
      rewrite (agent_country_code_on_fixed _ Hv).
      apply Nat.eqb_eq in L2. now rewrite L2.
Qed.

Lemma parser_country_code_agrees (x : Cell) :
  Parser.convert_country_code str_of_num x = Agent.convert_country_code str_of_num x.
Proof.
  unfold Parser.convert_country_code, Agent.convert_country_code.
  destruct (negb (truthy x) || isna x); [reflexivity|].
  now destruct (len (upper (strip (py_str str_of_num x))) =? 2)%nat.
Qed.

Lemma parser_clean_value_agrees (value : Cell) :
  Parser.clean_value float_of_str value = Agent.clean_numeric float_of_str value.
Proof. reflexivity. Qed.

Lemma clean_numeric_cases (value : Cell) :
  Agent.clean_numeric float_of_str value
  = if overflows value then Raise OverflowError
    else Ok (clean_cell float_of_str value).
Proof.
  unfold Agent.clean_numeric, clean_cell.
  destruct value as [|s|n|q|[]|n|[]|r]; simpl; try reflexivity.
  - now destruct (float_of_str s).
  - now destruct (float_overflows n).
Qed.

Lemma clean_cell_cases (value : Cell) :
  (isna value = true -> clean_cell float_of_str value = None)
  /\ (forall e, isna value = false ->
                py_float float_of_str value = Raise e ->
                clean_cell float_of_str value = None)
  /\ (forall q, isna value = false ->
                py_float float_of_str value = Ok q ->
                clean_cell float_of_str value = Some q).
Proof.
  unfold clean_cell. split; [|split].
  - now intros ->.
  - intros e -> H. now rewrite H.
  - intros q -> H. now rewrite H.
Qed.

End Conversions.

(** C7.  [convert_country_code] is idempotent, in both modules and on
    every cell: converting the result of a conversion returns it
    unchanged.  No entry of the table maps to a string that needs a
    further mapping, so the claim's side condition holds of every input. *)
Theorem C7_convert_country_code_idempotent (str_of_num : Q -> string) (x : Cell) :
  Agent.convert_country_code str_of_num
    (CStr (Agent.convert_country_code str_of_num x))
  = Agent.convert_country_code str_of_num x
  /\ Parser.convert_country_code str_of_num
      (CStr (Parser.convert_country_code str_of_num x))
    = Parser.convert_country_code str_of_num x.
Proof.
  split.
  - apply agent_country_code_idempotent.
  - rewrite !parser_country_code_agrees. apply agent_country_code_idempotent.
Qed.

(** C8, as the code has it.  [clean_numeric] (and [clean_value], which is
    the same function) is not total.  On the int 10^400 [float] raises
    OverflowError, which the handler for ValueError and TypeError lets
    through: the function raises.  It raises on exactly the ints beyond
    the range of the floats and returns on every other cell: null for an
    empty cell and for a cell [float] rejects, the float otherwise.  In
    [parse_file] a row with such a quantity gives no item and is filed as
    a parse error; [parse_acuity_invoice] stops on it. *)
Theorem C8_clean_numeric_raises_on_huge_int
        (float_of_str : string -> option Q) (str_of_num : Q -> string) :
  Agent.clean_numeric float_of_str (CInt (10 ^ 400)) = Raise OverflowError
  /\ Parser.clean_value float_of_str (CInt (10 ^ 400)) = Raise OverflowError
  /\ (forall value,
         Agent.clean_numeric float_of_str value
         = if overflows value then Raise OverflowError
           else Ok (clean_cell float_of_str value))
  /\ (forall value,
         (isna value = true -> clean_cell float_of_str value = None)
         /\ (forall e, isna value = false ->
                       py_float float_of_str value = Raise e ->
                       clean_cell float_of_str value = None)
         /\ (forall q, isna value = false ->
                       py_float float_of_str value = Ok q ->
                       clean_cell float_of_str value = Some q))
  /\ (forall value,
         Parser.clean_value float_of_str value
         = Agent.clean_numeric float_of_str value)
  /\ Agent.row_loop float_of_str str_of_num (Agent.__init__ None)
                    [(0, sample_huge_quantity_row)] [] []
     = Ok ([], [ParseError 1 "Parse error: int too large to convert to float"])
  /\ Parser.row_loop float_of_str str_of_num [(0, sample_huge_quantity_row)] []
     = Raise OverflowError.
Proof.
  split; [reflexivity|]. split; [reflexivity|].
  split; [apply clean_numeric_cases|]. split; [apply clean_cell_cases|].
  split; [reflexivity|]. split; reflexivity.
Qed.

(** * The row loop of the agent *)

Section AgentLoop.

Import Agent.

Variable float_of_str : string -> option Q.
Variable str_of_num : Q -> string.

Local Abbreviation row_loop := (Agent.row_loop float_of_str str_of_num).
Local Abbreviation extract_item := (Agent.extract_item float_of_str str_of_num).
Local Abbreviation no_sku := (Agent.no_sku str_of_num).
Local Abbreviation parse_file := (Agent.parse_file float_of_str str_of_num).

Lemma agent_row_loop_cons (self : Self) (idx : nat) (row : Row)
      (rest : list (nat * Row)) (line_items : list LineItem)
      (errors : list ErrorEntry) :
  row_loop self ((idx, row) :: rest) line_items errors
  = if limit_reached self line_items then Ok (line_items, errors)
    else
      sku <- iloc row (column "sku") ;;
      if no_sku sku then row_loop self rest line_items errors
      else
        match extract_item idx row sku with
        | Ok item =>
            row_loop self rest (line_items ++ [item])
                     (errors_after self idx item errors)
        | Raise e =>
            row_loop self rest line_items
                     (errors ++ [ParseError (idx + 1) ("Parse error: " ++ exn_str e)%string])
        end.
Proof. reflexivity. Qed.

Lemma agent_row_loop_limit (self : Self) (rows : list (nat * Row))
      (line_items : list LineItem) (errors : list ErrorEntry) :
  limit_reached self line_items = true ->
  row_loop self rows line_items errors = Ok (line_items, errors).
Proof.
  destruct rows as [|[idx row] rest]; [reflexivity|].
  intros H. now rewrite agent_row_loop_cons, H.
Qed.


(** A row that gives an item appends it, whatever validation says. *)
Lemma agent_row_loop_keep (self : Self) (idx : nat) (row : Row)
      (rest : list (nat * Row)) (line_items : list LineItem)
      (errors : list ErrorEntry) (sku : Cell) (item : LineItem) :
  limit_reached self line_items = false ->
  iloc row (column "sku") = Ok sku ->
  no_sku sku = false ->
  extract_item idx row sku = Ok item ->
  row_loop self ((idx, row) :: rest) line_items errors
  = row_loop self rest (line_items ++ [item]) (errors_after self idx item errors).
Proof.
  intros L Hs Hb Hi. rewrite agent_row_loop_cons, L, Hs. simpl.
  now rewrite Hb, Hi.
Qed.

(** The items collected do not depend on the [validate] switch. *)
Lemma agent_row_loop_items_validate (s1 s2 : Self) (rows : list (nat * Row)) :
  max_items s1 = max_items s2 ->
  forall line_items e1 e2,
    loop_items (row_loop s1 rows line_items e1)
    = loop_items (row_loop s2 rows line_items e2).
Proof.
  intros Hm. induction rows as [|[idx row] rest IH]; intros line_items e1 e2.
  - reflexivity.
  - rewrite !agent_row_loop_cons.
    replace (limit_reached s2 line_items) with (limit_reached s1 line_items)
      by (unfold limit_reached; now rewrite Hm).
    destruct (limit_reached s1 line_items); [reflexivity|].
    destruct (iloc row (column "sku")) as [sku|e]; simpl; [|reflexivity].
    destruct (no_sku sku); [apply IH|].
    destruct (extract_item idx row sku); apply IH.
Qed.

(** The loop only appends to the items it starts from. *)
Lemma agent_row_loop_prefix (self : Self) (rows : list (nat * Row)) :
  forall line_items errors its errs,
    row_loop self rows line_items errors = Ok (its, errs) ->
    exists more, its = line_items ++ more
                 /\ List.length more <= List.length rows.
Proof.
  induction rows as [|[idx row] rest IH]; intros line_items errors its errs.
  - simpl. intros [= <- _]. exists []. split; [now rewrite app_nil_r|simpl; lia].
  - rewrite agent_row_loop_cons.
    destruct (limit_reached self line_items).
    + intros [= <- _]. exists []. split; [now rewrite app_nil_r|simpl; lia].
    + destruct (iloc row (column "sku")) as [sku|e]; simpl; [|discriminate].
      destruct (no_sku sku).
      * intros H. destruct (IH _ _ _ _ H) as [more [-> Hl]].
        exists more. split; [reflexivity|simpl; lia].
      * destruct (extract_item idx row sku) as [item|e]; intros H;
          destruct (IH _ _ _ _ H) as [more [-> Hl]].
        -- exists (item :: more). rewrite <- app_assoc. split; [reflexivity|simpl; lia].
        -- exists more. split; [reflexivity|simpl; lia].
Qed.

Lemma iterrows_length (df : DataFrame) : List.length (iterrows df) = List.length df.
Proof. unfold iterrows. apply length_combine_seq. Qed.


(** With a positive limit [n], the loop returns the first [n] items of
    what the loop without a limit returns. *)
Lemma agent_row_loop_firstn (self self' : Self) (n : Z) (rows : list (nat * Row)) :
  max_items self = Some n -> (0 < n)%Z ->
  (forall l, limit_reached self' l = false) ->
  forall line_items e e' its' errs',
    (Z.of_nat (List.length line_items) <= n)%Z ->
    row_loop self' rows line_items e' = Ok (its', errs') ->
    exists errs,
      row_loop self rows line_items e = Ok (firstn (Z.to_nat n) its', errs).
Proof.
  intros Hm Hn Hfree.
  induction rows as [|[idx row] rest IH]; intros line_items e e' its' errs' Hlen H.
  - simpl in H. injection H as <- _. exists e. simpl.
    rewrite firstn_all2; [reflexivity|lia].
  - destruct (limit_reached self line_items) eqn:L.
    + rewrite (agent_row_loop_limit _ _ _ _ L).
      destruct (agent_row_loop_prefix _ _ _ _ _ _ H) as [more [-> _]].
      exists e. f_equal. f_equal.
      unfold limit_reached in L. rewrite Hm in L.
      apply andb_prop in L. destruct L as [_ L]. apply Z.leb_le in L.
      assert (El : Z.to_nat n = List.length line_items) by lia.
      rewrite El, firstn_app, firstn_all, Nat.sub_diag. simpl.
      now rewrite app_nil_r.
    + rewrite agent_row_loop_cons, L.
      rewrite agent_row_loop_cons, Hfree in H.
      destruct (iloc row (column "sku")) as [sku|ex]; simpl in *; [|discriminate].
      destruct (no_sku sku); [now apply (IH _ _ _ _ _ Hlen H)|].
      destruct (extract_item idx row sku) as [item|ex].
      * apply (IH _ _ _ _ _) with (2 := H).
        rewrite length_app. simpl.
        unfold limit_reached in L. rewrite Hm in L.
        apply andb_false_iff in L. destruct L as [L|L].
        -- apply negb_false_iff, Z.eqb_eq in L. lia.
        -- apply Z.leb_gt in L. lia.
      * now apply (IH _ _ _ _ _ Hlen H).
Qed.

Lemma agent_no_limit (self : Self) :
  max_items self = None \/ max_items self = Some 0%Z ->
  forall l, limit_reached self l = false.
Proof. intros [H|H] l; unfold limit_reached; now rewrite H. Qed.

Lemma agent_row_loop_bound (self : Self) (n : Z) (rows : list (nat * Row)) :
  max_items self = Some n -> (0 < n)%Z ->
  forall line_items errors its errs,
    (Z.of_nat (List.length line_items) <= n)%Z ->
    row_loop self rows line_items errors = Ok (its, errs) ->
    (Z.of_nat (List.length its) <= n)%Z.
Proof.
  intros Hm Hn.
  induction rows as [|[idx row] rest IH]; intros line_items errors its errs Hlen.
  - simpl. now intros [= <- _].
  - rewrite agent_row_loop_cons.
    destruct (limit_reached self line_items) eqn:L; [now intros [= <- _]|].
    destruct (iloc row (column "sku")) as [sku|ex]; simpl; [|discriminate].
    destruct (no_sku sku); [now apply IH|].
    destruct (extract_item idx row sku) as [item|ex]; [|now apply IH].
    apply IH. rewrite length_app. simpl.
    unfold limit_reached in L. rewrite Hm in L.
    apply andb_false_iff in L. destruct L as [L|L].
    + apply negb_false_iff, Z.eqb_eq in L. lia.
    + apply Z.leb_gt in L. lia.
Qed.

End AgentLoop.

(** * The row loop of the command-line parser *)

Section ParserLoop.

Import Parser.

Variable float_of_str : string -> option Q.
Variable str_of_num : Q -> string.

Local Abbreviation row_loop := (Parser.row_loop float_of_str str_of_num).




End ParserLoop.

(** * Claims about [parse_file] *)

(** C5.  Validation is advisory.  A row from which an item is extracted
    has the item appended to the item list unchanged, whether or not
    [_validate_item] reports issues, which only go to the errors list
    under the line number; and the items of a parse are the same with
    validation switched on or off. *)
Theorem C5_validation_is_advisory
        (float_of_str : string -> option Q) (str_of_num : Q -> string) :
  (forall self idx row rest line_items errors sku item,
      Agent.limit_reached self line_items = false ->
      iloc row (Agent.column "sku") = Ok sku ->
      Agent.no_sku str_of_num sku = false ->
      Agent.extract_item float_of_str str_of_num idx row sku = Ok item ->
      Agent.row_loop float_of_str str_of_num self ((idx, row) :: rest) line_items errors
      = Agent.row_loop float_of_str str_of_num self rest (line_items ++ [item])
                       (errors_after self idx item errors))
  /\ (forall s1 s2 file aggregate,
         Agent.max_items s1 = Agent.max_items s2 ->
         result_items (snd (Agent.parse_file float_of_str str_of_num s1 file aggregate))
         = result_items (snd (Agent.parse_file float_of_str str_of_num s2 file aggregate))).
Proof.
  split.
  - intros. now apply agent_row_loop_keep with sku.
  - intros s1 s2 file aggregate Hm. unfold Agent.parse_file.
    destruct file as [df|ex]; [|reflexivity].
    set (md := Agent.extract_metadata str_of_num df).
    pose proof (agent_row_loop_items_validate float_of_str str_of_num
                  (Agent.set_metadata s1 md) (Agent.set_metadata s2 md)
                  (iterrows df) Hm [] [] []) as H.
    destruct (Agent.row_loop float_of_str str_of_num (Agent.set_metadata s1 md)
                             (iterrows df) [] []) as [[i1 e1]|x1];
      destruct (Agent.row_loop float_of_str str_of_num (Agent.set_metadata s2 md)
                               (iterrows df) [] []) as [[i2 e2]|x2];
      simpl in H; try discriminate; [|reflexivity].
    injection H as ->. reflexivity.
Qed.

(** C5 at the sample row whose quantity is "N/A": the item is kept and
    the issue is recorded under line 3. *)
Lemma C5_validation_witness :
  Agent.row_loop float_of_digits str_of_integer (Agent.__init__ None)
                 [(2, sample_bad_quantity_row)] [] []
  = Ok ([sample_bad_quantity_item], [ValidationIssue 3 ["Missing quantity"]]).
Proof.
  rewrite (proj1 (C5_validation_is_advisory float_of_digits str_of_integer)
                 (Agent.__init__ None) 2 sample_bad_quantity_row [] [] []
                 (CStr "XYZ-9") sample_bad_quantity_item);
    reflexivity.
Defined.






(** C9, as the code has it.  On an empty item list [_generate_summary]
    returns the empty dictionary, with no total and no count in it, and
    raises nothing; parsing a sheet without rows succeeds with that empty
    summary. *)
Theorem C9_empty_summary_is_empty_dict
        (float_of_str : string -> option Q) (str_of_num : Q -> string)
        (self : Agent.Self) (aggregate : bool) :
  Agent._generate_summary [] = []
  /\ (forall k, dict_get k (Agent._generate_summary []) = None)
  /\ snd (Agent.parse_file float_of_str str_of_num self (Ok []) aggregate)
     = Agent.Success {| Agent.items := [];
                        Agent.r_metadata := [];
                        Agent.summary := [];
                        Agent.errors := [];
                        Agent.aggregated := aggregate |}.
Proof.
  repeat split. now destruct aggregate.
Qed.

(** C9 as worded fails: the summary of the empty list has no
    [total_items] entry, let alone one equal to 0. *)
Lemma C9_empty_summary_not_all_zero : ~ all_zero_summary (Agent._generate_summary []).
Proof.
  intros [H _]. simpl in H. discriminate H.
Qed.

(** C10.  An agent built with [max_items = n], [n > 0], returns at most
    [n] items, and without aggregation exactly the first [n] items of what
    an agent without a limit returns; an agent built with no config, with
    [max_items] unset, [None] or 0 never stops the scan. *)
Theorem C10_max_items_limit
        (float_of_str : string -> option Q) (str_of_num : Q -> string) :
  (forall c n file aggregate,
      Agent.cfg_max_items c = Some (Some n) -> (0 < n)%Z ->
      (Z.of_nat
         (List.length
            (result_items
               (snd (Agent.parse_file float_of_str str_of_num
                                      (Agent.__init__ (Some c)) file aggregate))))
       <= n)%Z)
  /\ (forall self self' n df r',
         Agent.max_items self = Some n -> (0 < n)%Z ->
         Agent.max_items self' = None \/ Agent.max_items self' = Some 0%Z ->
         snd (Agent.parse_file float_of_str str_of_num self' (Ok df) false)
         = Agent.Success r' ->
         exists r,
           snd (Agent.parse_file float_of_str str_of_num self (Ok df) false)
           = Agent.Success r
           /\ Agent.items r = firstn (Z.to_nat n) (Agent.items r'))
  /\ (forall config line_items,
         config = None
         \/ (exists c, config = Some c
                       /\ (Agent.cfg_max_items c = None
                           \/ Agent.cfg_max_items c = Some None
                           \/ Agent.cfg_max_items c = Some (Some 0%Z))) ->
         Agent.limit_reached (Agent.__init__ config) line_items = false).
Proof.
  split; [|split].
  - intros c n file aggregate Hc Hn. unfold Agent.parse_file.
    destruct file as [df|ex]; simpl; [|lia].
    set (self := Agent.set_metadata _ _).
    assert (Hm : Agent.max_items self = Some n) by (simpl; now rewrite Hc).
    destruct (Agent.row_loop float_of_str str_of_num self (iterrows df) [] [])
      as [[its errs]|ex] eqn:E; simpl; [|lia].
    pose proof (agent_row_loop_bound float_of_str str_of_num self n (iterrows df)
                  Hm Hn [] [] its errs) as B.
    simpl in B. specialize (B (Z.lt_le_incl _ _ Hn) E).
    destruct aggregate; [|exact B].
    rewrite agent_aggregate_length.
    pose proof (group_keys_length (map Agent.sku its)) as Hk.
    rewrite length_map in Hk. lia.
  - intros self self' n df r' Hm Hn Hfree. unfold Agent.parse_file.
    set (md := Agent.extract_metadata str_of_num df).
    destruct (Agent.row_loop float_of_str str_of_num (Agent.set_metadata self' md)
                             (iterrows df) [] []) as [[its' errs']|ex] eqn:E;
      simpl; [|discriminate].
    intros [= <-]. simpl.
    destruct (agent_row_loop_firstn float_of_str str_of_num
                (Agent.set_metadata self md) (Agent.set_metadata self' md) n
                (iterrows df) Hm Hn (agent_no_limit _ Hfree) [] [] [] its' errs')
      as [errs Hr]; [simpl; lia|exact E|].
    rewrite Hr. eexists. split; reflexivity.
  - intros config line_items H. apply agent_no_limit.
    destruct H as [->|[c [-> [H|[H|H]]]]]; simpl; try rewrite H; auto.
Qed.

(** C10 at the sample: with [max_items = 2] the three-item parse of the
    sample frame is cut to two items. *)
Lemma C10_max_items_witness :
  (Z.of_nat
     (List.length
        (result_items
           (snd (Agent.parse_file float_of_digits str_of_integer
                                  (Agent.__init__ (Some (sample_config 2)))
                                  (Ok sample_frame) false))))
   <= 2)%Z
  /\ Agent.limit_reached (Agent.__init__ (Some (sample_config 0))) sample_items = false.
Proof.
  split.
  - apply (proj1 (C10_max_items_limit float_of_digits str_of_integer)
                 (sample_config 2) 2%Z (Ok sample_frame) false).
    + reflexivity.
    + reflexivity.
  - apply (proj2 (proj2 (C10_max_items_limit float_of_digits str_of_integer))).
    right. exists (sample_config 0). split; [reflexivity|].
    right. right. reflexivity.
Defined.

(** * Worked scenarios *)

(** Country "MEX" becomes "MX", a 2-letter code is returned as it is, an
    unknown code is upper-cased, and unit "PZS" becomes "PCS". *)
Example scenario_normalization :
  Agent.convert_country_code str_of_integer (CStr "MEX") = "MX"
  /\ Agent.convert_country_code str_of_integer (CStr "US") = "US"
  /\ Agent.convert_country_code str_of_integer (CStr " xyz1 ") = "XYZ1"
  /\ Agent.convert_country_code str_of_integer CNaN = ""
  /\ Agent.convert_unit str_of_integer (CStr "PZS") = "PCS".
Proof. repeat split. Qed.

(** Parsing the sample frame with aggregation: the two "ABC123" lines
    merge into quantity 15 and value 140 at unit price 140/15, and the
    line with quantity "N/A" aggregates to quantity 0 and no unit price. *)
Example scenario_aggregated_parse :
  map (fun it => (Agent.line_number it, Agent.sku it, Agent.quantity it,
                  Agent.value it, Agent.unit_price it))
      (result_items
         (snd (Agent.parse_file float_of_digits str_of_integer (Agent.__init__ None)
                                (Ok sample_frame) true)))
  = [ (1, "ABC123", Some 15%Q, Some 140%Q, Some (140 / 15)%Q);
      (2, "XYZ-9", Some 0%Q, Some 40%Q, None) ].
Proof. reflexivity. Qed.

(** SKUs that differ only by case are different groups. *)
Example scenario_case_sensitive_groups :
  map Agent.sku
      (Agent.aggregate_by_sku
         [ sample_item 1 "abc" (Some 1%Q) None (Some 2%Q);
           sample_item 2 "ABC" (Some 1%Q) None (Some 2%Q) ])
  = ["ABC"; "abc"].
Proof. reflexivity. Qed.

(** * Further properties of the conversions *)

Section MoreConversions.

Import PyStr.

Variable float_of_str : string -> option Q.
Variable str_of_num : Q -> string.

Lemma unit_codes_fixed :
  Forall (fun v => upper (strip v) = v /\ get_default Agent.UNIT_CODES v v = v)
         (map snd Agent.UNIT_CODES).
Proof. repeat constructor. Qed.

Lemma agent_unit_on_fixed (u : string) :
  upper (strip u) = u ->
  Agent.convert_unit str_of_num (CStr u) = get_default Agent.UNIT_CODES u u.
Proof.
  intros H. unfold Agent.convert_unit. simpl.
  destruct (String.eqb_spec u "") as [->|Hne]; simpl; [reflexivity|].
  now rewrite H.
Qed.

Lemma agent_unit_idempotent (x : Cell) :
  Agent.convert_unit str_of_num (CStr (Agent.convert_unit str_of_num x))
  = Agent.convert_unit str_of_num x.
Proof.
  unfold Agent.convert_unit at 2 3.
  destruct (negb (truthy x) || isna x); [reflexivity|].
  set (u := upper (strip (py_str str_of_num x))).
  assert (Hu : upper (strip u) = u) by apply upper_strip_fixed.
  destruct (get_default_cases Agent.UNIT_CODES u) as [E|E].
  - rewrite E, (agent_unit_on_fixed _ Hu). exact E.
  - pose proof unit_codes_fixed as F. rewrite Forall_forall in F.
    destruct (F _ E) as [Hv Hg].
    now rewrite (agent_unit_on_fixed _ Hv).
Qed.

Lemma parser_unit_agrees (x : Cell) :
  Parser.convert_unit str_of_num x = Agent.convert_unit str_of_num x.
Proof. reflexivity. Qed.

Lemma agent_country_code_normalized (x : Cell) :
  normalized (Agent.convert_country_code str_of_num x).
Proof.
  unfold normalized, Agent.convert_country_code.
  destruct (negb (truthy x) || isna x); [reflexivity|].
  set (u := upper (strip (py_str str_of_num x))).
  assert (Hu : upper (strip u) = u) by apply upper_strip_fixed.
  destruct (negb (len u =? 2)%nat); [|exact Hu].
  destruct (get_default_cases Agent.COUNTRY_CODES u) as [E|E].
  - now rewrite E.
  - pose proof country_codes_fixed as F. rewrite Forall_forall in F.
    now destruct (F _ E).
Qed.

Lemma agent_unit_normalized (x : Cell) :
  normalized (Agent.convert_unit str_of_num x).
Proof.
  unfold normalized, Agent.convert_unit.
  destruct (negb (truthy x) || isna x); [reflexivity|].
  set (u := upper (strip (py_str str_of_num x))).
  assert (Hu : upper (strip u) = u) by apply upper_strip_fixed.
  destruct (get_default_cases Agent.UNIT_CODES u) as [E|E].
  - now rewrite E.
  - pose proof unit_codes_fixed as F. rewrite Forall_forall in F.
    now destruct (F _ E).
Qed.

Lemma strip_empty_iff_upper (s : string) :
  upper (strip s) = "" -> strip s = "".
Proof. destruct (strip s); simpl; [reflexivity|discriminate]. Qed.

End MoreConversions.

(** X1.  [convert_unit] is idempotent in both modules: no value of the
    unit table is itself a key, so converting a converted unit returns it
    unchanged. *)
Theorem X1_convert_unit_idempotent (str_of_num : Q -> string) (x : Cell) :
  Agent.convert_unit str_of_num (CStr (Agent.convert_unit str_of_num x))
  = Agent.convert_unit str_of_num x
  /\ Parser.convert_unit str_of_num (CStr (Parser.convert_unit str_of_num x))
     = Parser.convert_unit str_of_num x.
Proof.
  split.
  - apply agent_unit_idempotent.
  - rewrite !parser_unit_agrees. apply agent_unit_idempotent.
Qed.

(** X2.  The country and unit conversions only depend on a text through
    its stripped, upper-cased form, and what they return is itself
    stripped and upper-cased. *)
Theorem X2_conversions_normalize (str_of_num : Q -> string) (s : string) (x : Cell) :
  Agent.convert_country_code str_of_num (CStr s)
  = Agent.convert_country_code str_of_num (CStr (PyStr.upper (PyStr.strip s)))
  /\ Agent.convert_unit str_of_num (CStr s)
     = Agent.convert_unit str_of_num (CStr (PyStr.upper (PyStr.strip s)))
  /\ normalized (Agent.convert_country_code str_of_num x)
  /\ normalized (Agent.convert_unit str_of_num x).
Proof.
  assert (Hu : PyStr.upper (PyStr.strip (PyStr.upper (PyStr.strip s)))
               = PyStr.upper (PyStr.strip s)) by apply upper_strip_fixed.
  split; [|split; [|split]].
  - rewrite (agent_country_code_on_fixed str_of_num _ Hu).
    unfold Agent.convert_country_code. simpl.
    destruct (String.eqb_spec s "") as [->|Hne]; simpl; [reflexivity|].
    now destruct (PyStr.len (PyStr.upper (PyStr.strip s)) =? 2)%nat.
  - rewrite (agent_unit_on_fixed str_of_num _ Hu).
    unfold Agent.convert_unit. simpl.
    destruct (String.eqb_spec s "") as [->|Hne]; simpl; reflexivity.
  - apply agent_country_code_normalized.
  - apply agent_unit_normalized.
Qed.

(** The two modules convert alike: on every cell the parser's
    [convert_country_code], [convert_unit] and [clean_value] return what
    the agent's [convert_country_code], [convert_unit] and [clean_numeric]
    return, and both read every field from the same column. *)
Lemma modules_convert_alike
        (float_of_str : string -> option Q) (str_of_num : Q -> string) (x : Cell) :
  Parser.convert_country_code str_of_num x = Agent.convert_country_code str_of_num x
  /\ Parser.convert_unit str_of_num x = Agent.convert_unit str_of_num x
  /\ Parser.clean_value float_of_str x = Agent.clean_numeric float_of_str x
  /\ (forall field, Parser.column field = Agent.column field).
Proof.
  split; [apply parser_country_code_agrees|].
  split; [reflexivity|]. split; reflexivity.
Qed.

(** * Further properties of validation and extraction *)

Section Validation.

Import Agent.
Local Open Scope Q_scope.





End Validation.

Section Extraction.

Variable float_of_str : string -> option Q.
Variable str_of_num : Q -> string.

Lemma iloc_wide (row : Row) (i : nat) :
  i < List.length row -> iloc row i = Ok (nth i row CNaN).
Proof. intros H. unfold iloc. now rewrite (nth_error_nth' row CNaN H). Qed.

Lemma iloc_narrow (row : Row) (i : nat) :
  List.length row <= i -> iloc row i = Raise IndexError.
Proof.
  intros H. unfold iloc. apply nth_error_None in H. now rewrite H.
Qed.

Lemma agent_text_field_wide (row : Row) (i : nat) :
  i < List.length row ->
  Agent.text_field str_of_num row i = Ok (text_of str_of_num (nth i row CNaN)).
Proof.
  intros H. unfold Agent.text_field, text_of. rewrite (iloc_wide _ _ H). simpl.
  now destruct (isna (nth i row CNaN)).
Qed.

Lemma agent_numeric_field_wide (row : Row) (i : nat) :
  i < List.length row ->
  Agent.numeric_field float_of_str row i
  = if overflows (nth i row CNaN) then Raise OverflowError
    else Ok (clean_cell float_of_str (nth i row CNaN)).
Proof.
  intros H. unfold Agent.numeric_field. rewrite (iloc_wide _ _ H). simpl.
  apply clean_numeric_cases.
Qed.

(** On a row of at least 43 cells every read succeeds, and building the
    item raises only where [clean_numeric] does. *)
Lemma agent_extract_wide (idx : nat) (row : Row) (sku : Cell) :
  43 <= List.length row ->
  Agent.extract_item float_of_str str_of_num idx row sku
  = if overflowing_row row then Raise OverflowError
    else Ok (item_of_row float_of_str str_of_num idx row sku).
Proof.
  intros H. unfold Agent.extract_item, overflowing_row, numeric_columns.
  change (Agent.column "description") with 23.
  change (Agent.column "hts") with 42.
  change (Agent.column "country_of_origin") with 38.
  change (Agent.column "quantity") with 20.
  change (Agent.column "qty_unit") with 21.
  change (Agent.column "net_weight") with 33.
  change (Agent.column "gross_weight") with 34.
  change (Agent.column "unit_price") with 25.
  change (Agent.column "value") with 28.
  rewrite !agent_text_field_wide, !agent_numeric_field_wide, !iloc_wide by lia.
  cbn [existsb bind].
  destruct (overflows (nth 20 row CNaN)); [reflexivity|].
  destruct (overflows (nth 33 row CNaN)); [reflexivity|].
  destruct (overflows (nth 34 row CNaN)); [reflexivity|].
  destruct (overflows (nth 25 row CNaN)); [reflexivity|].
  destruct (overflows (nth 28 row CNaN)); reflexivity.
Qed.

Lemma agent_extract_narrow (idx : nat) (row : Row) (sku : Cell) :
  List.length row < 43 ->
  Agent.extract_item float_of_str str_of_num idx row sku = Raise IndexError.
Proof.
  intros H. unfold Agent.extract_item.
  change (Agent.column "description") with 23.
  change (Agent.column "hts") with 42.
  destruct (Agent.text_field str_of_num row 23) as [d|e] eqn:E; simpl.
  - unfold Agent.text_field at 1. rewrite iloc_narrow by lia. reflexivity.
  - unfold Agent.text_field in E.
    destruct (iloc row 23) as [c|e'] eqn:E'; simpl in E.
    + now destruct (isna c).
    + unfold iloc in E'. destruct (nth_error row 23); congruence.
Qed.

Lemma parser_extract_wide (idx : nat) (row : Row) (sku : Cell) :
  43 <= List.length row ->
  Parser.extract_item float_of_str str_of_num row sku
  = if overflowing_row row then Raise OverflowError
    else Ok (to_parser_item (item_of_row float_of_str str_of_num idx row sku)).
Proof.
  intros H. unfold Parser.extract_item, Parser.text_field, Parser.numeric_field,
    overflowing_row, numeric_columns.
  change (Parser.column "description") with 23.
  change (Parser.column "hts") with 42.
  change (Parser.column "country_of_origin") with 38.
  change (Parser.column "quantity") with 20.
  change (Parser.column "qty_unit") with 21.
  change (Parser.column "net_weight") with 33.
  change (Parser.column "gross_weight") with 34.
  change (Parser.column "unit_price") with 25.
  change (Parser.column "value") with 28.
  rewrite !iloc_wide by lia. cbn [bind].
  change (Parser.clean_value float_of_str) with (Agent.clean_numeric float_of_str).
  rewrite !clean_numeric_cases. cbn [existsb].
  destruct (isna (nth 23 row CNaN)) eqn:E23, (isna (nth 42 row CNaN)) eqn:E42;
    cbn [negb bind];
    (destruct (overflows (nth 20 row CNaN)); [reflexivity|]);
    (destruct (overflows (nth 33 row CNaN)); [reflexivity|]);
    (destruct (overflows (nth 34 row CNaN)); [reflexivity|]);
    (destruct (overflows (nth 25 row CNaN)); [reflexivity|]);
    (destruct (overflows (nth 28 row CNaN)); [reflexivity|]);
    cbn [bind orb]; unfold to_parser_item, item_of_row, text_of; simpl;
    rewrite !parser_country_code_agrees, ?E23, ?E42; reflexivity.
Qed.

Lemma parser_extract_narrow (row : Row) (sku : Cell) :
  List.length row < 43 ->
  Parser.extract_item float_of_str str_of_num row sku = Raise IndexError.
Proof.
  intros H. unfold Parser.extract_item.
  change (Parser.column "description") with 23.
  change (Parser.column "hts") with 42.
  unfold Parser.text_field at 1.
  destruct (iloc row 23) as [c|e] eqn:E; simpl.
  - unfold Parser.text_field. rewrite (iloc_narrow row 42) by lia.
    now destruct (isna c).
  - unfold iloc in E. destruct (nth_error row 23); congruence.
Qed.

(** The two modules build the same item from a row, and fail on the same
    rows with the same exception. *)
Lemma parser_extract_agrees (idx : nat) (row : Row) (sku : Cell) :
  Parser.extract_item float_of_str str_of_num row sku
  = result_map to_parser_item
               (Agent.extract_item float_of_str str_of_num idx row sku).
Proof.
  destruct (le_lt_dec 43 (List.length row)) as [H|H].
  - rewrite (parser_extract_wide idx _ _ H), (agent_extract_wide _ _ _ H).
    now destruct (overflowing_row row).
  - now rewrite (parser_extract_narrow _ _ H), (agent_extract_narrow _ _ _ H).
Qed.

End Extraction.

(** X3.  Extraction depends on the width of the row and on the size of
    its ints.  On a row of at least 43 cells with no out-of-range int in
    a numeric field it returns an item: the line number is the index plus
    one, the text fields are stripped, the codes converted and each
    numeric field is the cleaned cell.  On such a row with an out-of-range
    int in a numeric field it raises OverflowError, and on a narrower row
    it raises IndexError. *)
Theorem X3_extraction_by_row_width
        (float_of_str : string -> option Q) (str_of_num : Q -> string)
        (idx : nat) (row : Row) (sku : Cell) :
  (43 <= List.length row -> overflowing_row row = false ->
   Agent.extract_item float_of_str str_of_num idx row sku
   = Ok (item_of_row float_of_str str_of_num idx row sku))
  /\ (43 <= List.length row -> overflowing_row row = true ->
      Agent.extract_item float_of_str str_of_num idx row sku = Raise OverflowError)
  /\ (List.length row < 43 ->
      Agent.extract_item float_of_str str_of_num idx row sku = Raise IndexError).
Proof.
  split; [|split].
  - intros H O. now rewrite agent_extract_wide, O.
  - intros H O. now rewrite agent_extract_wide, O.
  - apply agent_extract_narrow.
Qed.

(** * The invariant of the agent's row loop *)

Section LoopInvariant.

Variable float_of_str : string -> option Q.
Variable str_of_num : Q -> string.
Variable self : Agent.Self.

Lemma sorted_snoc (l : list nat) (x : nat) :
  StronglySorted lt l -> Forall (fun y => y < x) l -> StronglySorted lt (l ++ [x]).
Proof.
  induction 1 as [|a l Hs IH Ha]; intros Hx; simpl.
  - repeat constructor.
  - inversion Hx as [|? ? Hax Hlx]; subst.
    constructor; [now apply IH|].
    apply Forall_app. split; [exact Ha|]. now repeat constructor.
Qed.

Lemma error_ok_more (its : list Agent.LineItem) (it : Agent.LineItem) (e : ErrorEntry) :
  error_line e < Agent.line_number it ->
  error_ok self its e -> error_ok self (its ++ [it]) e.
Proof.
  destruct e as [n msgs|n msg]; simpl; intros Hlt.
  - intros (Hv & Hm & it' & Hin & Hl & E). repeat split; trivial.
    exists it'. repeat split; trivial. apply in_or_app. now left.
  - intros [H E]. split; [|exact E].
    intros it' Hin. apply in_app_or in Hin. destruct Hin as [Hin|[<-|[]]].
    + now apply H.
    + lia.
Qed.

Lemma loop_state_ok_mono (k k' : nat) (its : list Agent.LineItem)
      (errs : list ErrorEntry) :
  k <= k' -> loop_state_ok self k its errs -> loop_state_ok self k' its errs.
Proof.
  intros Hk (Hi & Hs & He & Hse & Hr). repeat split; trivial.
  - eapply Forall_impl; [|exact Hi]. simpl. intros it [[H1 H2] H3].
    split; [lia|exact H3].
  - eapply Forall_impl; [|exact He]. simpl. intros e [[H1 H2] H3].
    split; [lia|exact H3].
Qed.

Lemma item_of_row_ok (idx : nat) (row : Row) (sku : Cell) :
  Agent.no_sku str_of_num sku = false ->
  item_ok (item_of_row float_of_str str_of_num idx row sku).
Proof.
  intros H. unfold Agent.no_sku in H. apply orb_false_iff in H.
  destruct H as [_ H]. apply String.eqb_neq in H.
  unfold item_ok. simpl. repeat split.
  - exact H.
  - apply strip_idem.
  - apply agent_country_code_normalized.
  - apply agent_unit_normalized.
Qed.

Lemma loop_state_ok_item (k : nat) (its : list Agent.LineItem)
      (errs : list ErrorEntry) (it : Agent.LineItem) :
  Agent.line_number it = k + 1 ->
  item_ok it ->
  loop_state_ok self k its errs ->
  loop_state_ok self (k + 1) (its ++ [it]) (errors_after self k it errs).
Proof.
  intros Hl Hok (Hi & Hs & He & Hse & Hr).
  assert (Hi' : Forall (fun it0 => 1 <= Agent.line_number it0 <= k + 1 /\ item_ok it0)
                       (its ++ [it])).
  { apply Forall_app. split.
    - eapply Forall_impl; [|exact Hi]. simpl. intros it0 [[H1 H2] H3].
      split; [lia|exact H3].
    - constructor; [split; [lia|exact Hok]|constructor]. }
  assert (Hs' : StronglySorted lt (map Agent.line_number (its ++ [it]))).
  { rewrite map_app. simpl. apply sorted_snoc; [exact Hs|].
    apply Forall_map. eapply Forall_impl; [|exact Hi]. simpl.
    intros it0 [[H1 H2] _]. lia. }
  assert (He' : Forall (fun e => 1 <= error_line e <= k + 1
                                 /\ error_ok self (its ++ [it]) e) errs).
  { eapply Forall_impl; [|exact He]. simpl. intros e [[H1 H2] H3].
    split; [lia|]. apply error_ok_more; [lia|exact H3]. }
  assert (Hold : Forall (fun y => y < k + 1) (map error_line errs)).
  { apply Forall_map. eapply Forall_impl; [|exact He]. simpl.
    intros e [[H1 H2] _]. lia. }
  unfold errors_after.
  destruct (Agent.validate self) eqn:V.
  - destruct (Agent._validate_item it) as [|m ms] eqn:Vi.
    + repeat split; trivial.
      unfold issues_recorded. apply Forall_app. split; [exact Hr|].
      constructor; [|constructor]. intros _ Hne. now rewrite Vi in Hne.
    + repeat split; trivial.
      * apply Forall_app. split; [exact He'|].
        constructor; [|constructor]. simpl. split; [lia|].
        split; [exact V|]. split; [discriminate|].
        exists it. split; [apply in_or_app; right; now left|].
        split; [lia|]. now rewrite Vi.
      * rewrite map_app. simpl. now apply sorted_snoc.
      * unfold issues_recorded. apply Forall_app. split.
        -- eapply Forall_impl; [|exact Hr]. simpl. intros it0 H0 Hv Hne.
           apply in_or_app. left. now apply H0.
        -- constructor; [|constructor]. intros _ _.
           apply in_or_app. right. left. now rewrite Hl, Vi.
  - repeat split; trivial.
    unfold issues_recorded. apply Forall_app. split; [exact Hr|].
    constructor; [|constructor]. intros Hv. congruence.
Qed.

Lemma loop_state_ok_parse_error (k : nat) (its : list Agent.LineItem)
      (errs : list ErrorEntry) (msg : string) :
  In msg parse_error_messages ->
  loop_state_ok self k its errs ->
  loop_state_ok self (k + 1) its (errs ++ [ParseError (k + 1) msg]).
Proof.
  intros Hmsg H.
  destruct (loop_state_ok_mono k (k + 1) its errs (Nat.le_add_r k 1) H)
    as (Hi' & Hs' & He' & Hse' & Hr').
  destruct H as (Hi & Hs & He & Hse & Hr).
  repeat split; trivial.
  - apply Forall_app. split; [exact He'|].
    constructor; [|constructor]. simpl. split; [lia|]. split; [|exact Hmsg].
    intros it Hin. rewrite Forall_forall in Hi.
    destruct (Hi _ Hin) as [[H1 H2] _]. lia.
  - rewrite map_app. simpl. apply sorted_snoc; [exact Hse|].
    apply Forall_map. eapply Forall_impl; [|exact He]. simpl.
    intros e [[H1 H2] _]. lia.
  - unfold issues_recorded. eapply Forall_impl; [|exact Hr]. simpl.
    intros it0 H0 Hv Hne. apply in_or_app. left. now apply H0.
Qed.

Lemma agent_extract_cases (idx : nat) (row : Row) (sku : Cell) :
  Agent.extract_item float_of_str str_of_num idx row sku
  = Ok (item_of_row float_of_str str_of_num idx row sku)
  \/ Agent.extract_item float_of_str str_of_num idx row sku = Raise IndexError
  \/ Agent.extract_item float_of_str str_of_num idx row sku = Raise OverflowError.
Proof.
  destruct (le_lt_dec 43 (List.length row)) as [H|H].
  - rewrite (agent_extract_wide _ _ _ _ _ H).
    destruct (overflowing_row row); [right; now right|now left].
  - right. left. now apply agent_extract_narrow.
Qed.

Lemma agent_row_loop_ok (rows : list (nat * Row)) :
  forall k its errs its' errs',
    map fst rows = seq k (List.length rows) ->
    loop_state_ok self k its errs ->
    Agent.row_loop float_of_str str_of_num self rows its errs = Ok (its', errs') ->
    loop_state_ok self (k + List.length rows) its' errs'.
Proof.
  induction rows as [|[idx row] rest IH]; intros k its errs its' errs' Hidx Hok.
  - simpl. intros [= <- <-]. now rewrite Nat.add_0_r.
  - simpl in Hidx. injection Hidx as -> Hrest.
    replace (k + List.length ((k, row) :: rest)) with (S k + List.length rest)
      by (simpl; lia).
    rewrite agent_row_loop_cons.
    destruct (Agent.limit_reached self its).
    + intros [= <- <-]. apply (loop_state_ok_mono k); [lia|exact Hok].
    + destruct (iloc row (Agent.column "sku")) as [sku|ex]; simpl; [|discriminate].
      destruct (Agent.no_sku str_of_num sku) eqn:B.
      * intros H. refine (IH (S k) _ _ _ _ Hrest _ H).
        apply (loop_state_ok_mono k); [lia|exact Hok].
      * destruct (agent_extract_cases k row sku) as [E|[E|E]]; rewrite E; intros H.
        -- refine (IH (S k) _ _ _ _ Hrest _ H). replace (S k) with (k + 1) by lia.
           apply loop_state_ok_item; [reflexivity| |exact Hok].
           now apply item_of_row_ok.
        -- refine (IH (S k) _ _ _ _ Hrest _ H). replace (S k) with (k + 1) by lia.
           apply loop_state_ok_parse_error; [now left|exact Hok].
        -- refine (IH (S k) _ _ _ _ Hrest _ H). replace (S k) with (k + 1) by lia.
           apply loop_state_ok_parse_error; [right; now left|exact Hok].
Qed.

Lemma iterrows_indices (df : DataFrame) :
  map fst (iterrows df) = seq 0 (List.length (iterrows df)).
Proof.
  rewrite iterrows_length. unfold iterrows. apply map_fst_combine_seq.
Qed.

Lemma agent_parse_loop_ok (df : DataFrame) (its : list Agent.LineItem)
      (errs : list ErrorEntry) :
  Agent.row_loop float_of_str str_of_num self (iterrows df) [] [] = Ok (its, errs) ->
  loop_state_ok self (List.length df) its errs.
Proof.
  intros H.
  pose proof (agent_row_loop_ok (iterrows df) 0 [] [] its errs
                (iterrows_indices df)) as L.
  rewrite iterrows_length in L. apply L; [|exact H].
  repeat split; constructor.
Qed.

End LoopInvariant.

(** * Further properties of [parse_file] *)

Section ParseFileShape.

Variable float_of_str : string -> option Q.
Variable str_of_num : Q -> string.

(** What a successful parse is made of: the outcome of the row loop, and
    the items aggregated or not. *)
Lemma agent_parse_file_success (self : Agent.Self) (df : DataFrame)
      (aggregate : bool) (r : Agent.Envelope) :
  snd (Agent.parse_file float_of_str str_of_num self (Ok df) aggregate)
  = Agent.Success r ->
  exists its,
    Agent.row_loop float_of_str str_of_num
                   (Agent.set_metadata self (Agent.extract_metadata str_of_num df))
                   (iterrows df) [] []
    = Ok (its, Agent.errors r)
    /\ Agent.items r = (if aggregate then Agent.aggregate_by_sku its else its)
    /\ loop_state_ok self (List.length df) its (Agent.errors r).
Proof.
  unfold Agent.parse_file.
  destruct (Agent.row_loop float_of_str str_of_num
              (Agent.set_metadata self (Agent.extract_metadata str_of_num df))
              (iterrows df) [] []) as [[its errs]|ex] eqn:E; simpl; [|discriminate].
  intros [= <-]. simpl. exists its.
  split; [reflexivity|]. split; [reflexivity|].
  exact (agent_parse_loop_ok float_of_str str_of_num _ df its errs E).
Qed.

End ParseFileShape.

Lemma item_ok_no_missing_sku (it : Agent.LineItem) :
  item_ok it -> ~ In "Missing SKU" (Agent._validate_item it).
Proof.
  intros (Hs & _). unfold Agent._validate_item.
  apply String.eqb_neq in Hs. rewrite Hs.
  destruct (String.eqb (Agent.hts it) ""),
    (String.eqb (Agent.country_of_origin it) "");
    destruct (Agent.quantity it) as [q|]; try destruct (Qle_bool q 0);
    destruct (Agent.value it) as [v|]; try destruct (Qlt0 v); simpl;
    intuition discriminate.
Qed.

(** X4.  Without aggregation the items of a successful parse carry
    strictly increasing line numbers between 1 and the number of rows, so
    no two items share a line; the entries of the errors list are filed
    under strictly increasing lines in the same range, so a row gives at
    most one entry. *)
Theorem X4_line_numbers_increase
        (float_of_str : string -> option Q) (str_of_num : Q -> string)
        (self : Agent.Self) (df : DataFrame) (aggregate : bool) (r : Agent.Envelope) :
  snd (Agent.parse_file float_of_str str_of_num self (Ok df) aggregate)
  = Agent.Success r ->
  (aggregate = false ->
   StronglySorted lt (map Agent.line_number (Agent.items r))
   /\ Forall (fun it => 1 <= Agent.line_number it <= List.length df) (Agent.items r))
  /\ StronglySorted lt (map error_line (Agent.errors r))
  /\ Forall (fun e => 1 <= error_line e <= List.length df) (Agent.errors r).
Proof.
  intros H.
  destruct (agent_parse_file_success _ _ _ _ _ _ H)
    as (its & _ & Hi & (Ha & Hb & Hc & Hd & _)).
  repeat split; trivial.
  - subst aggregate. now rewrite Hi.
  - subst aggregate. rewrite Hi. eapply Forall_impl; [|exact Ha]. simpl. tauto.
  - eapply Forall_impl; [|exact Hc]. simpl. tauto.
Qed.

(** X5.  The errors list of a successful parse speaks of the items kept.
    A validation entry exists only when validation is on, and reports the
    non-empty findings of [_validate_item] on the kept item of that line;
    every kept item with findings has its entry; a parse error is filed
    under a line that gave no item, with the message of what stopped the
    extraction: a read outside the row, or the float of an out-of-range
    int. *)
Theorem X5_errors_refer_to_items
        (float_of_str : string -> option Q) (str_of_num : Q -> string)
        (self : Agent.Self) (df : DataFrame) (r : Agent.Envelope) :
  snd (Agent.parse_file float_of_str str_of_num self (Ok df) false)
  = Agent.Success r ->
  Forall (error_ok self (Agent.items r)) (Agent.errors r)
  /\ issues_recorded self (Agent.items r) (Agent.errors r)
  /\ (Agent.validate self = false ->
      forall n msgs, ~ In (ValidationIssue n msgs) (Agent.errors r)).
Proof.
  intros H.
  destruct (agent_parse_file_success _ _ _ _ _ _ H)
    as (its & _ & Hi & (Ha & Hb & Hc & Hd & He)).
  simpl in Hi. rewrite Hi.
  assert (Hok : Forall (error_ok self its) (Agent.errors r))
    by (eapply Forall_impl; [|exact Hc]; simpl; tauto).
  repeat split; trivial.
  intros Hv n msgs Hin. rewrite Forall_forall in Hok.
  destruct (Hok _ Hin) as [Hv' _]. congruence.
Qed.

(** X6.  Parsing never reports "Missing SKU": a row reaches validation
    only with a SKU that is not blank, so that rule of [_validate_item]
    cannot fire on a parsed item, with or without aggregation. *)
Theorem X6_missing_sku_never_reported
        (float_of_str : string -> option Q) (str_of_num : Q -> string)
        (self : Agent.Self) (df : DataFrame) (aggregate : bool) (r : Agent.Envelope)
        (n : nat) (msgs : list string) :
  snd (Agent.parse_file float_of_str str_of_num self (Ok df) aggregate)
  = Agent.Success r ->
  In (ValidationIssue n msgs) (Agent.errors r) ->
  ~ In "Missing SKU" msgs.
Proof.
  intros H Hin.
  destruct (agent_parse_file_success _ _ _ _ _ _ H)
    as (its & _ & _ & (Ha & _ & Hc & _)).
  rewrite Forall_forall in Hc. destruct (Hc _ Hin) as [_ Hok].
  simpl in Hok. destruct Hok as (_ & _ & it & Hit & _ & ->).
  apply item_ok_no_missing_sku.
  rewrite Forall_forall in Ha. destruct (Ha _ Hit) as [_ Hok]. exact Hok.
Qed.

(** * Further properties of aggregation *)

Section MoreAggregate.

Import Agent.

(** The first row of a key: the rows before it have other keys. *)
Lemma group_first (l : list LineItem) (k : string) :
  In k (map sku l) ->
  exists pre m post,
    l = pre ++ m :: post
    /\ sku m = k
    /\ (forall x, In x pre -> sku x <> k)
    /\ group l k = m :: group post k.
Proof.
  induction l as [|a l IH]; simpl; [tauto|].
  destruct (String.eqb_spec (sku a) k) as [E|E].
  - intros _. exists [], a, l. repeat split; trivial. intros x [].
  - intros [H|H]; [contradiction|].
    destruct (IH H) as (pre & m & post & -> & Hm & Hpre & Hg).
    exists (a :: pre), m, post. repeat split; trivial.
    intros x [<-|Hx]; [exact E|now apply Hpre].
Qed.

Lemma agent_aggregate_key (l : list LineItem) (out : LineItem) :
  In out (aggregate_by_sku l) -> In (sku out) (map sku l).
Proof.
  intros H. apply group_keys_In. rewrite <- agent_aggregate_skus.
  now apply in_map.
Qed.

Lemma agent_aggregate_record (l : list LineItem) (out : LineItem) :
  In out (aggregate_by_sku l) ->
  exists pre m post,
    l = pre ++ m :: post
    /\ sku m = sku out
    /\ (forall x, In x pre -> sku x <> sku out)
    /\ description out = description m
    /\ hts out = hts m
    /\ country_of_origin out = country_of_origin m
    /\ qty_unit out = qty_unit m.
Proof.
  intros H.
  destruct (group_first l (sku out) (agent_aggregate_key _ _ H))
    as (pre & m & post & El & Hm & Hpre & Hg).
  destruct (agent_aggregate_In _ _ H) as [n E].
  exists pre, m, post. repeat split; trivial;
    rewrite E at 1; simpl; unfold agg_first; now rewrite Hg.
Qed.

Lemma agent_aggregate_sums (l : list LineItem) (out : LineItem) :
  In out (aggregate_by_sku l) ->
  let g := group l (sku out) in
  quantity out = Some (agg_sum quantity g)
  /\ net_weight out = Some (agg_sum net_weight g)
  /\ gross_weight out = Some (agg_sum gross_weight g)
  /\ value out = Some (agg_sum value g).
Proof.
  intros H g. subst g. destruct (agent_aggregate_In _ _ H) as [n E].
  repeat split; rewrite E at 1; reflexivity.
Qed.

Lemma group_keys_fixed (ks : list string) :
  StronglySorted str_lt ks -> group_keys ks = ks.
Proof.
  induction 1 as [|k ks Hs IH Hk]; simpl; [reflexivity|].
  rewrite IH. destruct ks as [|h t]; simpl; [reflexivity|].
  inversion Hk as [|? ? Hkh _]; subst. unfold str_lt in Hkh. now rewrite Hkh.
Qed.

Lemma group_keys_all_distinct (col : list string) :
  NoDup col -> List.length (group_keys col) = List.length col.
Proof.
  intros H. apply Nat.le_antisymm; [apply group_keys_length|].
  apply NoDup_incl_length; [exact H|].
  intros x Hx. now apply group_keys_In.
Qed.

Lemma group_keys_some_duplicate (col : list string) :
  List.length (group_keys col) = List.length col -> NoDup col.
Proof.
  intros H. apply (@NoDup_incl_NoDup _ (group_keys col) col).
  - apply group_keys_NoDup.
  - rewrite H. apply Nat.le_refl.
  - intros x Hx. now apply group_keys_In.
Qed.

End MoreAggregate.

Section AggregateAlgebra.

Import Agent.
Local Open Scope Q_scope.

Lemma sorted_unique (l1 : list string) :
  forall l2,
    StronglySorted str_lt l1 -> StronglySorted str_lt l2 ->
    (forall x, In x l1 <-> In x l2) -> l1 = l2.
Proof.
  induction l1 as [|a t1 IH]; intros [|b t2] H1 H2 Hin.
  - reflexivity.
  - exfalso. apply (proj2 (Hin b)). now left.
  - exfalso. apply (proj1 (Hin a)). now left.
  - inversion H1 as [|? ? Hs1 Ha]; subst. inversion H2 as [|? ? Hs2 Hb]; subst.
    rewrite Forall_forall in Ha, Hb.
    assert (E : a = b).
    { destruct (proj1 (Hin a) (or_introl eq_refl)) as [E|Hab]; [now symmetry|].
      destruct (proj2 (Hin b) (or_introl eq_refl)) as [E|Hba]; [exact E|].
      exfalso. apply (str_lt_irrefl a).
      apply str_lt_trans with b; [now apply Ha|now apply Hb]. }
    subst b. f_equal. apply IH; trivial.
    intros x. split; intros Hx.
    + destruct (proj1 (Hin x) (or_intror Hx)) as [<-|H]; [|exact H].
      exfalso. exact (str_lt_irrefl _ (Ha _ Hx)).
    + destruct (proj2 (Hin x) (or_intror Hx)) as [<-|H]; [|exact H].
      exfalso. exact (str_lt_irrefl _ (Hb _ Hx)).
Qed.

Lemma group_keys_same_elements (c1 c2 : list string) :
  (forall x, In x c1 <-> In x c2) -> group_keys c1 = group_keys c2.
Proof.
  intros H. apply sorted_unique; try apply group_keys_sorted.
  intros x. rewrite !group_keys_In. apply H.
Qed.

Lemma Qgt0_ext (x y : Q) : x == y -> Qgt0 x = Qgt0 y.
Proof. intros H. unfold Qgt0. now rewrite H. Qed.

Lemma new_unit_price_ext (r r' : AggRow) :
  a_quantity r == a_quantity r' -> a_value r == a_value r' ->
  opt_Qeq (new_unit_price r) (new_unit_price r').
Proof.
  intros Hq Hv. unfold new_unit_price. rewrite (Qgt0_ext _ _ Hq).
  destruct (Qgt0 (a_quantity r')) eqn:E; simpl; [|exact I].
  apply Qgt0_true in E.
  rewrite Hv, Hq. reflexivity.
Qed.

(** Comparing two aggregations key by key. *)
Lemma agent_aggregate_Forall2 (R : LineItem -> LineItem -> Prop)
      (l l' : list LineItem) :
  group_keys (map sku l) = group_keys (map sku l') ->
  (forall n k, In k (group_keys (map sku l)) ->
               R (to_record (n, agg_group l k)) (to_record (n, agg_group l' k))) ->
  Forall2 R (aggregate_by_sku l) (aggregate_by_sku l').
Proof.
  intros Hk HR. rewrite !agent_aggregate_unfold. unfold groupby_agg.
  rewrite <- Hk, !length_map.
  generalize 1%nat as s. revert HR.
  generalize (group_keys (map sku l)) as ks.
  induction ks as [|k ks IH]; intros HR s; simpl; constructor.
  - apply HR. now left.
  - apply IH. intros n k' Hk'. apply HR. now right.
Qed.

Lemma group_perm (l l' : list LineItem) (k : string) :
  Permutation l l' -> Permutation (group l k) (group l' k).
Proof.
  unfold group.
  induction 1 as [|x l l' _ IH|x y l|l l' l'' _ IH1 _ IH2]; simpl.
  - constructor.
  - destruct (String.eqb (sku x) k); [now constructor|exact IH].
  - destruct (String.eqb (sku x) k), (String.eqb (sku y) k);
      try apply Permutation_refl. apply perm_swap.
  - now apply Permutation_trans with (filter (fun r => String.eqb (sku r) k) l').
Qed.

(** In a list without two rows of the same key, the group of a row is
    that row alone. *)
Lemma group_single (L : list LineItem) (r : LineItem) :
  NoDup (map sku L) -> In r L -> group L (sku r) = [r].
Proof.
  unfold group. induction L as [|a L IH]; simpl; [tauto|].
  intros Hnd Hin. inversion Hnd as [|? ? Ha Hnd']; subst.
  destruct Hin as [->|Hin].
  - rewrite String.eqb_refl. f_equal.
    assert (Hno : forall x, In x L -> String.eqb (sku x) (sku r) = false).
    { intros x Hx. apply String.eqb_neq. intros E. apply Ha. rewrite <- E.
      now apply in_map. }
    clear -Hno. induction L as [|b L IH]; simpl; [reflexivity|].
    rewrite (Hno b) by now left. apply IH. intros x Hx. apply Hno. now right.
  - destruct (String.eqb_spec (sku a) (sku r)) as [E|E].
    + exfalso. apply Ha. rewrite E. now apply in_map.
    + now apply IH.
Qed.

Lemma agent_aggregate_find (l : list LineItem) (k : string) :
  In k (group_keys (map sku l)) ->
  exists n, In (to_record (n, agg_group l k)) (aggregate_by_sku l).
Proof.
  intros Hk. rewrite <- agent_aggregate_skus in Hk.
  apply in_map_iff in Hk. destruct Hk as (out & <- & Hout).
  destruct (agent_aggregate_In _ _ Hout) as [n E].
  exists n. now rewrite <- E.
Qed.

Lemma to_record_totals_eqv (n : nat) (r r' : AggRow) :
  a_sku r = a_sku r' ->
  a_quantity r == a_quantity r' ->
  a_net_weight r == a_net_weight r' ->
  a_gross_weight r == a_gross_weight r' ->
  a_value r == a_value r' ->
  totals_eqv (to_record (n, r)) (to_record (n, r')).
Proof.
  intros Hs Hq Hn Hg Hv. unfold totals_eqv. simpl.
  split; [reflexivity|]. split; [exact Hs|]. split; [exact Hq|].
  split; [exact Hn|]. split; [exact Hg|]. split; [exact Hv|].
  now apply new_unit_price_ext.
Qed.

Lemma agg_sum_single (col : LineItem -> option Q) (x : Q) (r : LineItem) :
  col r = Some x -> agg_sum col [r] == x.
Proof.
  intros H. unfold agg_sum. simpl map. rewrite H. simpl or0.
  rewrite py_sum_cons, py_sum_nil. ring.
Qed.

End AggregateAlgebra.

(** X7.  What an aggregated record holds.  Its text fields are those of
    the first input row with its SKU, in input order; its quantity, net
    weight, gross weight and value are the sums over all input rows with
    that SKU, an empty entry counting as 0, and are never empty. *)
Theorem X7_aggregated_record (l : list Agent.LineItem) (out : Agent.LineItem) :
  In out (Agent.aggregate_by_sku l) ->
  (exists pre m post,
      l = pre ++ m :: post
      /\ Agent.sku m = Agent.sku out
      /\ (forall x, In x pre -> Agent.sku x <> Agent.sku out)
      /\ Agent.description out = Agent.description m
      /\ Agent.hts out = Agent.hts m
      /\ Agent.country_of_origin out = Agent.country_of_origin m
      /\ Agent.qty_unit out = Agent.qty_unit m)
  /\ (let g := Agent.group l (Agent.sku out) in
      Agent.quantity out = Some (Agent.agg_sum Agent.quantity g)
      /\ Agent.net_weight out = Some (Agent.agg_sum Agent.net_weight g)
      /\ Agent.gross_weight out = Some (Agent.agg_sum Agent.gross_weight g)
      /\ Agent.value out = Some (Agent.agg_sum Agent.value g)).
Proof.
  intros H. split.
  - now apply agent_aggregate_record.
  - now apply agent_aggregate_sums.
Qed.

(** X8.  Aggregation never lengthens the list, and it keeps the length
    exactly when no two input rows share a SKU. *)
Theorem X8_aggregation_merges_only_duplicates (l : list Agent.LineItem) :
  List.length (Agent.aggregate_by_sku l) <= List.length l
  /\ (List.length (Agent.aggregate_by_sku l) = List.length l
      <-> NoDup (map Agent.sku l)).
Proof.
  rewrite agent_aggregate_length.
  pose proof (group_keys_length (map Agent.sku l)) as Hle.
  rewrite length_map in Hle. split; [exact Hle|]. split; intros H.
  - apply group_keys_some_duplicate. now rewrite length_map.
  - rewrite (group_keys_all_distinct _ H). apply length_map.
Qed.

(** X9.  Aggregation is idempotent: aggregating an aggregated list
    returns records with the same keys, line numbers and text fields, and
    numerically equal quantity, weights, value and unit price. *)
Theorem X9_aggregation_idempotent (l : list Agent.LineItem) :
  Forall2 item_eqv
          (Agent.aggregate_by_sku (Agent.aggregate_by_sku l))
          (Agent.aggregate_by_sku l).
Proof.
  assert (Hk : group_keys (map Agent.sku (Agent.aggregate_by_sku l))
               = group_keys (map Agent.sku l)).
  { rewrite agent_aggregate_skus. apply group_keys_fixed, group_keys_sorted. }
  apply agent_aggregate_Forall2; [exact Hk|].
  intros n k Hin. rewrite Hk in Hin.
  destruct (agent_aggregate_find _ _ Hin) as [n0 Hr].
  assert (Hg : Agent.group (Agent.aggregate_by_sku l) k
               = [Agent.to_record (n0, Agent.agg_group l k)]).
  { apply (group_single (Agent.aggregate_by_sku l) _) in Hr; [exact Hr|].
    rewrite agent_aggregate_skus. apply group_keys_NoDup. }
  split.
  - apply to_record_totals_eqv; unfold Agent.agg_group; simpl;
      try reflexivity; rewrite Hg; now apply agg_sum_single.
  - unfold Agent.agg_group. simpl. rewrite Hg. simpl. now repeat split.
Qed.

(** X10.  Which records an aggregation returns, and which rows each of
    them sums, does not depend on the order of the input rows: two inputs
    that are permutations of each other give records with the same SKUs
    in the same order and under the same line numbers, and the rows of
    each SKU are the same up to their order.  (The sums are floating
    additions of the same amounts in a different order, and the text
    fields follow the first row of each SKU: both may differ.) *)
Theorem X10_aggregation_order_independent (l l' : list Agent.LineItem) :
  Permutation l l' ->
  map Agent.sku (Agent.aggregate_by_sku l) = map Agent.sku (Agent.aggregate_by_sku l')
  /\ map Agent.line_number (Agent.aggregate_by_sku l)
     = map Agent.line_number (Agent.aggregate_by_sku l')
  /\ (forall k, Permutation (Agent.group l k) (Agent.group l' k)).
Proof.
  intros Hp.
  assert (Hk : group_keys (map Agent.sku l) = group_keys (map Agent.sku l')).
  { apply group_keys_same_elements. intros x.
    split; apply Permutation_in; [|apply Permutation_sym];
      now apply Permutation_map. }
  split; [|split].
  - now rewrite !agent_aggregate_skus.
  - now rewrite !agent_aggregate_line_numbers, !agent_aggregate_length, Hk.
  - intros k. now apply group_perm.
Qed.

(** * The two modules side by side *)

Section ModulesAgree.

Variable float_of_str : string -> option Q.
Variable str_of_num : Q -> string.

Lemma parser_group_map (l : list Agent.LineItem) (k : string) :
  Parser.group (map to_parser_item l) k = map to_parser_item (Agent.group l k).
Proof.
  unfold Parser.group, Agent.group.
  induction l as [|a l IH]; simpl; [reflexivity|].
  destruct (String.eqb (Agent.sku a) k); simpl; now rewrite IH.
Qed.

Lemma parser_agg_group_map (l : list Agent.LineItem) (n : nat) (k : string) :
  to_parser_item (Agent.to_record (n, Agent.agg_group l k))
  = Parser.to_record (Parser.agg_group (map to_parser_item l) k).
Proof.
  unfold Parser.agg_group, Parser.agg_sum. rewrite parser_group_map, !map_map.
  unfold Agent.agg_group, Agent.agg_sum, to_parser_item, Parser.to_record,
    Parser.new_unit_price, Agent.new_unit_price.
  simpl. now destruct (Agent.group l k).
Qed.

Lemma parser_aggregate_map (l : list Agent.LineItem) :
  Parser.aggregate_by_sku (map to_parser_item l)
  = map to_parser_item (Agent.aggregate_by_sku l).
Proof.
  rewrite parser_aggregate_unfold, agent_aggregate_unfold.
  unfold Parser.groupby_agg, Agent.groupby_agg.
  rewrite !map_map.
  rewrite (map_ext (fun x => Parser.sku (to_parser_item x)) Agent.sku)
    by reflexivity.
  rewrite (map_ext _ (fun nr : nat * Agent.AggRow =>
                        (fun r => to_parser_item (Agent.to_record (0, r))) (snd nr))).
  - rewrite (map_snd_combine_seq
               (fun r => to_parser_item (Agent.to_record (0, r)))), map_map.
    apply map_ext. intros k. symmetry. apply parser_agg_group_map.
  - intros [n r]. reflexivity.
Qed.

Lemma count_parse_errors_app (e1 e2 : list ErrorEntry) :
  count_parse_errors (e1 ++ e2) = count_parse_errors e1 + count_parse_errors e2.
Proof. unfold count_parse_errors. now rewrite filter_app, length_app. Qed.

Lemma count_parse_errors_after (self : Agent.Self) (idx : nat)
      (it : Agent.LineItem) (errs : list ErrorEntry) :
  count_parse_errors (errors_after self idx it errs) = count_parse_errors errs.
Proof.
  unfold errors_after. destruct (Agent.validate self); [|reflexivity].
  destruct (Agent._validate_item it); [reflexivity|].
  unfold count_parse_errors. rewrite filter_app, length_app. simpl. lia.
Qed.

Lemma agent_row_loop_count (self : Agent.Self) (rows : list (nat * Row)) :
  forall its errs its' errs',
    Agent.row_loop float_of_str str_of_num self rows its errs = Ok (its', errs') ->
    count_parse_errors errs <= count_parse_errors errs'.
Proof.
  induction rows as [|[idx row] rest IH]; intros its errs its' errs'.
  - simpl. now intros [= _ <-].
  - rewrite agent_row_loop_cons.
    destruct (Agent.limit_reached self its); [now intros [= _ <-]|].
    destruct (iloc row (Agent.column "sku")) as [sku|ex]; simpl; [|discriminate].
    destruct (Agent.no_sku str_of_num sku); [apply IH|].
    destruct (Agent.extract_item float_of_str str_of_num idx row sku) as [it|ex];
      intros H; apply IH in H.
    + now rewrite count_parse_errors_after in H.
    + rewrite count_parse_errors_app in H. unfold count_parse_errors in *.
      simpl in H. lia.
Qed.

(** The two row loops, run on the same rows from matching item lists:
    the parser returns the agent's items when the agent records no parse
    error, and raises when the agent records one or fails. *)
Lemma row_loops_agree (self : Agent.Self) (rows : list (nat * Row)) :
  (forall l, Agent.limit_reached self l = false) ->
  forall its errs,
    match Parser.row_loop float_of_str str_of_num rows (map to_parser_item its) with
    | Ok pits =>
        exists its' errs',
          Agent.row_loop float_of_str str_of_num self rows its errs = Ok (its', errs')
          /\ map to_parser_item its' = pits
          /\ count_parse_errors errs' = count_parse_errors errs
    | Raise _ =>
        (exists ex,
            Agent.row_loop float_of_str str_of_num self rows its errs = Raise ex)
        \/ exists its' errs',
             Agent.row_loop float_of_str str_of_num self rows its errs
             = Ok (its', errs')
             /\ count_parse_errors errs < count_parse_errors errs'
    end.
Proof.
  intros Hfree. induction rows as [|[idx row] rest IH]; intros its errs.
  - simpl. exists its, errs. now repeat split.
  - rewrite agent_row_loop_cons, Hfree.
    change (Parser.row_loop float_of_str str_of_num ((idx, row) :: rest)
                            (map to_parser_item its))
      with (sku <- iloc row (Parser.column "sku") ;;
            if Parser.no_sku str_of_num sku
            then Parser.row_loop float_of_str str_of_num rest (map to_parser_item its)
            else line_item <- Parser.extract_item float_of_str str_of_num row sku ;;
                 Parser.row_loop float_of_str str_of_num rest
                                 (map to_parser_item its ++ [line_item])).
    change (Parser.column "sku") with (Agent.column "sku").
    change (Parser.no_sku str_of_num) with (Agent.no_sku str_of_num).
    destruct (iloc row (Agent.column "sku")) as [sku|ex] eqn:I; simpl.
    2:{ left. now exists ex. }
    destruct (Agent.no_sku str_of_num sku); [apply IH|].
    rewrite (parser_extract_agrees float_of_str str_of_num idx).
    destruct (Agent.extract_item float_of_str str_of_num idx row sku)
      as [item|ex] eqn:E; cbn [result_map bind].
    + specialize (IH (its ++ [item]) (errors_after self idx item errs)).
      rewrite map_app in IH. simpl in IH.
      destruct (Parser.row_loop float_of_str str_of_num rest _) as [pits|ex].
      * destruct IH as (its' & errs' & H1 & H2 & H3).
        exists its', errs'. repeat split; trivial.
        now rewrite H3, count_parse_errors_after.
      * destruct IH as [H|(its' & errs' & H1 & H2)].
        -- now left.
        -- right. exists its', errs'. split; [exact H1|].
           now rewrite count_parse_errors_after in H2.
    + match goal with
      | |- context [Agent.row_loop _ _ self rest its ?e] => set (errs1 := e)
      end.
      destruct (Agent.row_loop float_of_str str_of_num self rest its errs1)
        as [[its' errs']|ex'] eqn:L.
      * right. exists its', errs'. split; [reflexivity|].
        apply agent_row_loop_count in L. unfold errs1 in L.
        rewrite count_parse_errors_app in L. unfold count_parse_errors in *.
        simpl in L. lia.
      * left. now exists ex'.
Qed.

End ModulesAgree.

(** X11.  The two aggregators agree: aggregating the parser's view of a
    list of agent items gives the parser's view of the agent's
    aggregation, record by record and in the same order. *)
Theorem X11_aggregators_agree (l : list Agent.LineItem) :
  Parser.aggregate_by_sku (map to_parser_item l)
  = map to_parser_item (Agent.aggregate_by_sku l).
Proof. apply parser_aggregate_map. Qed.

Lemma parsers_agree_iff
        (float_of_str : string -> option Q) (str_of_num : Q -> string)
        (self : Agent.Self) (file : PyResult DataFrame) (aggregate : bool)
        (pits : list Parser.LineItem) :
  Agent.max_items self = None \/ Agent.max_items self = Some 0%Z ->
  (Parser.parse_acuity_invoice float_of_str str_of_num file aggregate = Ok pits
   <-> exists r,
         snd (Agent.parse_file float_of_str str_of_num self file aggregate)
         = Agent.Success r
         /\ count_parse_errors (Agent.errors r) = 0
         /\ map to_parser_item (Agent.items r) = pits).
Proof.
  intros Hfree. unfold Parser.parse_acuity_invoice, Agent.parse_file.
  destruct file as [df|ex]; simpl.
  2:{ split; [discriminate|]. intros (r & H & _). discriminate H. }
  set (self' := Agent.set_metadata self (Agent.extract_metadata str_of_num df)).
  pose proof (row_loops_agree float_of_str str_of_num self' (iterrows df)
                (agent_no_limit self' Hfree) [] []) as A.
  simpl in A.
  destruct (Parser.row_loop float_of_str str_of_num (iterrows df) []) as [l|ex];
    simpl.
  - destruct A as (its' & errs' & H1 & H2 & H3). rewrite H1. simpl.
    assert (E : (if aggregate then Parser.aggregate_by_sku l else l)
                = map to_parser_item
                      (if aggregate then Agent.aggregate_by_sku its' else its')).
    { destruct aggregate; [|now symmetry].
      rewrite <- H2. apply parser_aggregate_map. }
    split.
    + intros [= <-]. eexists. split; [reflexivity|]. simpl.
      split; [exact H3|now symmetry].
    + intros (r & [= <-] & _ & <-). simpl. now rewrite E.
  - destruct A as [[ex' H]|(its' & errs' & H1 & H2)].
    + rewrite H. split; [discriminate|]. intros (r & Hr & _). discriminate Hr.
    + rewrite H1. simpl. split; [discriminate|].
      intros (r & [= <-] & Hc & _). simpl in Hc. simpl in H2. lia.
Qed.

(** X12.  The two parsers agree.  For an agent without an item limit,
    [parse_acuity_invoice] returns a list exactly when [parse_file]
    succeeds without recording a parse error, and the list is then the
    parser's view of the agent's items, with or without aggregation. *)
Theorem X12_parsers_agree
        (float_of_str : string -> option Q) (str_of_num : Q -> string)
        (self : Agent.Self) (file : PyResult DataFrame) (aggregate : bool)
        (pits : list Parser.LineItem) :
  Agent.max_items self = None \/ Agent.max_items self = Some 0%Z ->
  (Parser.parse_acuity_invoice float_of_str str_of_num file aggregate = Ok pits
   <-> exists r,
         snd (Agent.parse_file float_of_str str_of_num self file aggregate)
         = Agent.Success r
         /\ count_parse_errors (Agent.errors r) = 0
         /\ map to_parser_item (Agent.items r) = pits).
Proof. apply parsers_agree_iff. Qed.

(** * Frames by width *)

Section FramesByWidth.

Variable float_of_str : string -> option Q.
Variable str_of_num : Q -> string.
Variable self : Agent.Self.

Lemma gives_overflow_cons (idx : nat) (row : Row) (rest : list (nat * Row)) :
  filter (gives_overflow str_of_num) ((idx, row) :: rest)
  = if negb (Agent.no_sku str_of_num (nth 19 row CNaN)) && overflowing_row row
    then (idx, row) :: filter (gives_overflow str_of_num) rest
    else filter (gives_overflow str_of_num) rest.
Proof. reflexivity. Qed.

Lemma gives_item_cons (idx : nat) (row : Row) (rest : list (nat * Row)) :
  filter (gives_item str_of_num) ((idx, row) :: rest)
  = if negb (Agent.no_sku str_of_num (nth 19 row CNaN))
       && negb (overflowing_row row)
    then (idx, row) :: filter (gives_item str_of_num) rest
    else filter (gives_item str_of_num) rest.
Proof. reflexivity. Qed.

Lemma agent_row_loop_wide (rows : list (nat * Row)) :
  Forall (fun ir => 43 <= List.length (snd ir)) rows ->
  forall its errs,
    exists its' errs',
      Agent.row_loop float_of_str str_of_num self rows its errs = Ok (its', errs')
      /\ count_parse_errors errs'
         <= count_parse_errors errs
            + List.length (filter (gives_overflow str_of_num) rows).
Proof.
  induction 1 as [|[idx row] rest Hw _ IH]; intros its errs.
  - exists its, errs. split; [reflexivity|lia].
  - simpl in Hw. rewrite agent_row_loop_cons.
    destruct (Agent.limit_reached self its); [exists its, errs; split; [reflexivity|lia]|].
    change (Agent.column "sku") with 19. rewrite iloc_wide by lia. cbn [bind].
    rewrite gives_overflow_cons.
    destruct (Agent.no_sku str_of_num (nth 19 row CNaN)); cbn [negb andb].
    { apply IH. }
    rewrite (agent_extract_wide float_of_str str_of_num idx row _ Hw).
    destruct (overflowing_row row).
    + match goal with
      | |- context [Agent.row_loop _ _ self rest its ?e] =>
          destruct (IH its e) as (its' & errs' & H1 & H2)
      end.
      exists its', errs'. split; [exact H1|].
      rewrite count_parse_errors_app in H2. unfold count_parse_errors in *.
      simpl in *. lia.
    + destruct (IH (its ++ [item_of_row float_of_str str_of_num idx row (nth 19 row CNaN)])
                   (errors_after self idx
                      (item_of_row float_of_str str_of_num idx row (nth 19 row CNaN))
                      errs))
        as (its' & errs' & H1 & H2).
      exists its', errs'. split; [exact H1|].
      now rewrite count_parse_errors_after in H2.
Qed.

Lemma agent_row_loop_wide_items (rows : list (nat * Row)) :
  Forall (fun ir => 43 <= List.length (snd ir)) rows ->
  (forall l, Agent.limit_reached self l = false) ->
  forall its errs,
    exists errs',
      Agent.row_loop float_of_str str_of_num self rows its errs
      = Ok (its ++ map (row_item float_of_str str_of_num)
                       (filter (gives_item str_of_num) rows), errs')
      /\ count_parse_errors errs'
         = count_parse_errors errs
           + List.length (filter (gives_overflow str_of_num) rows).
Proof.
  intros Hw Hfree. induction Hw as [|[idx row] rest Hw _ IH]; intros its errs.
  - exists errs. simpl. rewrite app_nil_r. split; [reflexivity|lia].
  - simpl in Hw. rewrite agent_row_loop_cons, Hfree.
    change (Agent.column "sku") with 19. rewrite iloc_wide by lia. cbn [bind].
    rewrite gives_overflow_cons, gives_item_cons.
    destruct (Agent.no_sku str_of_num (nth 19 row CNaN)); cbn [negb andb].
    { apply IH. }
    rewrite (agent_extract_wide float_of_str str_of_num idx row _ Hw).
    destruct (overflowing_row row); cbn [negb].
    + match goal with
      | |- context [Agent.row_loop _ _ self rest its ?e] =>
          destruct (IH its e) as (errs' & H1 & H2)
      end.
      exists errs'. split; [exact H1|].
      rewrite count_parse_errors_app in H2. unfold count_parse_errors in *.
      simpl in *. lia.
    + destruct (IH (its ++ [item_of_row float_of_str str_of_num idx row (nth 19 row CNaN)])
                   (errors_after self idx
                      (item_of_row float_of_str str_of_num idx row (nth 19 row CNaN))
                      errs))
        as (errs' & H1 & H2).
      exists errs'. rewrite H1, <- app_assoc. split; [reflexivity|].
      now rewrite count_parse_errors_after in H2.
Qed.

Lemma no_overflowing_rows (rows : list (nat * Row)) :
  Forall (fun ir => overflowing_row (snd ir) = false) rows ->
  filter (gives_overflow str_of_num) rows = [].
Proof.
  induction 1 as [|ir rest Hr _ IH]; [reflexivity|].
  cbn [filter]. unfold gives_overflow at 1. rewrite Hr, andb_false_r. exact IH.
Qed.

Lemma agent_row_loop_narrow (rows : list (nat * Row)) :
  Forall (fun ir => 20 <= List.length (snd ir) < 43) rows ->
  Agent.limit_reached self [] = false ->
  forall errs,
    Agent.row_loop float_of_str str_of_num self rows [] errs
    = Ok ([], errs ++ map row_parse_error (filter (has_sku str_of_num) rows)).
Proof.
  intros Hw L. induction Hw as [|[idx row] rest Hw _ IH]; intros errs.
  - simpl. now rewrite app_nil_r.
  - simpl in Hw. rewrite agent_row_loop_cons, L.
    change (Agent.column "sku") with 19. rewrite iloc_wide by lia. simpl.
    unfold has_sku at 1. simpl.
    destruct (Agent.no_sku str_of_num (nth 19 row CNaN)); simpl; [apply IH|].
    rewrite agent_extract_narrow by lia.
    rewrite IH. now rewrite <- app_assoc.
Qed.

Lemma iterrows_widths (P : Row -> Prop) (df : DataFrame) :
  Forall P df -> Forall (fun ir : nat * Row => P (snd ir)) (iterrows df).
Proof.
  intros H. apply Forall_forall. intros [i row] Hin.
  unfold iterrows in Hin. apply in_combine_r in Hin.
  rewrite Forall_forall in H. now apply H.
Qed.

End FramesByWidth.

(** X13.  On a sheet whose rows all have at least 43 cells, parsing
    succeeds, with at most one parse error for each row that has a SKU
    and an out-of-range int in a numeric field; when no row has such an
    int, the command-line parser returns a list on it; and an agent
    without an item limit returns, without aggregation, exactly one item
    per row with a SKU and no such int, in row order, and one parse error
    per row with a SKU and such an int. *)
Theorem X13_wide_sheet_parses
        (float_of_str : string -> option Q) (str_of_num : Q -> string)
        (self : Agent.Self) (df : DataFrame) (aggregate : bool) :
  Forall (fun row => 43 <= List.length row) df ->
  (exists r,
      snd (Agent.parse_file float_of_str str_of_num self (Ok df) aggregate)
      = Agent.Success r
      /\ count_parse_errors (Agent.errors r)
         <= List.length (filter (gives_overflow str_of_num) (iterrows df)))
  /\ (Forall (fun row => overflowing_row row = false) df ->
      exists pits,
        Parser.parse_acuity_invoice float_of_str str_of_num (Ok df) aggregate
        = Ok pits)
  /\ (Agent.max_items self = None \/ Agent.max_items self = Some 0%Z ->
      exists r,
        snd (Agent.parse_file float_of_str str_of_num self (Ok df) false)
        = Agent.Success r
        /\ Agent.items r
           = map (row_item float_of_str str_of_num)
                 (filter (gives_item str_of_num) (iterrows df))
        /\ count_parse_errors (Agent.errors r)
           = List.length (filter (gives_overflow str_of_num) (iterrows df))).
Proof.
  intros Hw. pose proof (iterrows_widths _ df Hw) as Hw'. simpl in Hw'.
  assert (S1 : forall self' aggregate',
             exists r,
               snd (Agent.parse_file float_of_str str_of_num self' (Ok df) aggregate')
               = Agent.Success r
               /\ count_parse_errors (Agent.errors r)
                  <= List.length (filter (gives_overflow str_of_num) (iterrows df))).
  { intros self' aggregate'. unfold Agent.parse_file.
    destruct (agent_row_loop_wide float_of_str str_of_num
                (Agent.set_metadata self' (Agent.extract_metadata str_of_num df))
                (iterrows df) Hw' [] []) as (its' & errs' & H1 & H2).
    rewrite H1. simpl. eexists. split; [reflexivity|exact H2]. }
  split; [apply S1|]. split.
  - intros Hno. pose proof (iterrows_widths _ df Hno) as Hno'. simpl in Hno'.
    destruct (S1 (Agent.__init__ None) aggregate) as (r & Hr & Hc).
    rewrite (no_overflowing_rows str_of_num _ Hno') in Hc. simpl in Hc.
    exists (map to_parser_item (Agent.items r)).
    apply (parsers_agree_iff float_of_str str_of_num (Agent.__init__ None)).
    + now left.
    + exists r. split; [exact Hr|]. split; [lia|reflexivity].
  - intros Hfree. unfold Agent.parse_file.
    destruct (agent_row_loop_wide_items float_of_str str_of_num
                (Agent.set_metadata self (Agent.extract_metadata str_of_num df))
                (iterrows df) Hw' (agent_no_limit _ Hfree) [] []) as (errs' & H1 & H2).
    rewrite H1. simpl. eexists. split; [reflexivity|]. split; [reflexivity|exact H2].
Qed.

(** X14.  On a sheet whose rows all have between 20 and 42 cells, an
    agent whose limit does not stop it at once keeps no item and records
    one parse error, with the out-of-bounds message, for each row with a
    SKU: the parse succeeds with an empty item list and an empty summary. *)
Theorem X14_narrow_sheet_gives_only_parse_errors
        (float_of_str : string -> option Q) (str_of_num : Q -> string)
        (self : Agent.Self) (df : DataFrame) (aggregate : bool) :
  Forall (fun row => 20 <= List.length row < 43) df ->
  Agent.limit_reached self [] = false ->
  snd (Agent.parse_file float_of_str str_of_num self (Ok df) aggregate)
  = Agent.Success
      {| Agent.items := [];
         Agent.r_metadata := Agent.extract_metadata str_of_num df;
         Agent.summary := [];
         Agent.errors := map row_parse_error (filter (has_sku str_of_num) (iterrows df));
         Agent.aggregated := aggregate |}.
Proof.
  intros Hw L. pose proof (iterrows_widths _ df Hw) as Hw'. simpl in Hw'.
  unfold Agent.parse_file.
  rewrite (agent_row_loop_narrow float_of_str str_of_num
             (Agent.set_metadata self (Agent.extract_metadata str_of_num df))
             (iterrows df) Hw' L []).
  simpl. now destruct aggregate.
Qed.


(** X16.  A negative [max_items] is not "no limit": the limit test holds
    before the first row is read, so the parse succeeds with no item, no
    error and an empty summary on every readable sheet, however badly
    formed. *)
Theorem X16_negative_limit_reads_nothing
        (float_of_str : string -> option Q) (str_of_num : Q -> string)
        (self : Agent.Self) (n : Z) (df : DataFrame) (aggregate : bool) :
  Agent.max_items self = Some n -> (n < 0)%Z ->
  snd (Agent.parse_file float_of_str str_of_num self (Ok df) aggregate)
  = Agent.Success
      {| Agent.items := [];
         Agent.r_metadata := Agent.extract_metadata str_of_num df;
         Agent.summary := [];
         Agent.errors := [];
         Agent.aggregated := aggregate |}.
Proof.
  intros Hm Hn. unfold Agent.parse_file.
  rewrite agent_row_loop_limit.
  - simpl. now destruct aggregate.
  - unfold Agent.limit_reached. simpl. rewrite Hm.
    apply andb_true_intro. split.
    + apply negb_true_iff, Z.eqb_neq. lia.
    + apply Z.leb_le. simpl. lia.
Qed.

(** * Metadata and summary *)

Section Metadata.

Variable str_of_num : Q -> string.

Lemma dict_get_app {V : Type} (k : string) (a b : list (string * V)) :
  dict_get k (a ++ b)
  = match dict_get k a with
    | Some v => Some v
    | None => dict_get k b
    end.
Proof.
  induction a as [|[k' v] a IH]; simpl; [reflexivity|].
  now destruct (String.eqb k' k).
Qed.

Lemma dict_get_absent {V : Type} (k : string) (d : list (string * V)) :
  ~ In k (map fst d) -> dict_get k d = None.
Proof.
  induction d as [|[k' v] d IH]; simpl; [reflexivity|].
  intros H. destruct (String.eqb_spec k' k) as [E|E]; [tauto|].
  apply IH. tauto.
Qed.

Lemma metadata_fold (row : Row) (cols : list (string * nat)) :
  NoDup (map fst cols) ->
  forall acc key,
    dict_get key
      (fold_left
         (fun metadata (kv : string * nat) =>
            let '(key, idx) := kv in
            match nth_error row idx with
            | Some val => if negb (isna val)
                          then metadata ++ [(key, Agent.header_value str_of_num val)]
                          else metadata
            | None => metadata
            end)
         cols acc)
    = match dict_get key acc with
      | Some v => Some v
      | None =>
          match dict_get key cols with
          | Some idx => header_cell str_of_num row idx
          | None => None
          end
      end.
Proof.
  induction cols as [|[k i] t IH]; intros Hnd acc key; simpl.
  - now destruct (dict_get key acc).
  - inversion Hnd as [|? ? Hk Hnd']; subst.
    rewrite (IH Hnd'). unfold header_cell.
    destruct (String.eqb_spec k key) as [E|E].
    + subst key. rewrite (dict_get_absent k t Hk).
      destruct (nth_error row i) as [val|]; [|now destruct (dict_get k acc)].
      destruct (isna val); simpl; [now destruct (dict_get k acc)|].
      rewrite dict_get_app. simpl. rewrite String.eqb_refl.
      now destruct (dict_get k acc).
    + destruct (nth_error row i) as [val|]; [|reflexivity].
      destruct (isna val); simpl; [reflexivity|].
      rewrite dict_get_app. simpl.
      apply String.eqb_neq in E. rewrite E.
      now destruct (dict_get key acc).
Qed.

End Metadata.

(** X17.  Looking a key up in the extracted metadata.  A sheet without
    rows gives no metadata; otherwise a key is bound exactly when it is
    one of the eight header fields and the first row has a cell at that
    field's column that is not empty.  It is bound to the cell itself
    when that is a Python int, float or bool, and to the text of the cell
    otherwise, which includes the numpy integers and booleans that the
    first row of an integer or boolean column holds. *)
Theorem X17_metadata_lookup
        (str_of_num : Q -> string) (row : Row) (rest : DataFrame) (key : string) :
  Agent.extract_metadata str_of_num [] = []
  /\ dict_get key (Agent.extract_metadata str_of_num (row :: rest))
     = match dict_get key Agent.header_cols with
       | Some idx => header_cell str_of_num row idx
       | None => None
       end
  /\ (forall n q b s r,
         Agent.header_value str_of_num (CInt n) = CInt n
         /\ Agent.header_value str_of_num (CFloat q) = CFloat q
         /\ Agent.header_value str_of_num (CBool b) = CBool b
         /\ Agent.header_value str_of_num (CStr s) = CStr s
         /\ Agent.header_value str_of_num (CNpInt n) = CStr (str_of_int n)
         /\ Agent.header_value str_of_num (CNpBool b)
            = CStr (if b then "True" else "False")
         /\ Agent.header_value str_of_num (CObj r) = CStr r).
Proof.
  split; [reflexivity|]. split.
  - unfold Agent.extract_metadata. rewrite metadata_fold; [reflexivity|].
    unfold Agent.header_cols. simpl.
    repeat (constructor; [simpl; intuition discriminate|]). constructor.
  - intros n q b s r. repeat split.
Qed.

Section Summary.

Lemma agent_aggregate_nonempty (a : Agent.LineItem) (l : list Agent.LineItem) :
  Agent.aggregate_by_sku (a :: l) <> [].
Proof.
  intros H. apply (f_equal (@List.length _)) in H.
  rewrite agent_aggregate_length in H. simpl in H.
  assert (Hin : In (Agent.sku a) (insert_key (Agent.sku a) (group_keys (map Agent.sku l))))
    by (apply insert_key_In; now left).
  destruct (insert_key (Agent.sku a) (group_keys (map Agent.sku l)));
    [contradiction|discriminate].
Qed.

End Summary.

Section SummaryFacts.

Import Agent.

Lemma count_distinct_le (c : list string) : count_distinct c <= List.length c.
Proof.
  unfold count_distinct. apply NoDup_incl_length; [apply NoDup_nodup|].
  intros x Hx. now apply nodup_In in Hx.
Qed.

Lemma count_distinct_filter_le (f : string -> bool) (c : list string) :
  count_distinct (filter f c) <= List.length c.
Proof.
  pose proof (count_distinct_le (filter f c)) as H.
  pose proof (filter_length_le f c). lia.
Qed.

Lemma count_distinct_pos (a : string) (c : list string) :
  1 <= count_distinct (a :: c).
Proof.
  unfold count_distinct.
  assert (H : In a (nodup string_dec (a :: c))) by (apply nodup_In; now left).
  destruct (nodup string_dec (a :: c)); [contradiction|simpl; lia].
Qed.

Lemma agent_summary_cons (a : LineItem) (t : list LineItem) :
  _generate_summary (a :: t)
  = [ ("total_items", Count (List.length (a :: t)));
      ("total_quantity", Amount (py_round2 (agg_sum quantity (a :: t))));
      ("total_value", Amount (py_round2 (agg_sum value (a :: t))));
      ("total_weight_kg", Amount (py_round2 (agg_sum net_weight (a :: t))));
      ("unique_skus", Count (count_distinct (map sku (a :: t))));
      ("unique_hts_codes", Count (count_distinct (filter nonempty (map hts (a :: t)))));
      ("unique_origins",
       Count (count_distinct (filter nonempty (map country_of_origin (a :: t))))) ].
Proof. reflexivity. Qed.

End SummaryFacts.

(** X20.  The counts of the summary of a list that is not empty: there is
    at least one unique SKU, and no count exceeds [total_items]; after
    aggregation the number of unique SKUs is [total_items] itself. *)
Theorem X20_summary_counts (a : Agent.LineItem) (t : list Agent.LineItem) :
  let l := a :: t in
  (exists u h o,
      dict_get "unique_skus" (Agent._generate_summary l) = Some (Count u)
      /\ dict_get "unique_hts_codes" (Agent._generate_summary l) = Some (Count h)
      /\ dict_get "unique_origins" (Agent._generate_summary l) = Some (Count o)
      /\ 1 <= u <= List.length l
      /\ h <= List.length l
      /\ o <= List.length l)
  /\ dict_get "unique_skus" (Agent._generate_summary (Agent.aggregate_by_sku l))
     = dict_get "total_items" (Agent._generate_summary (Agent.aggregate_by_sku l)).
Proof.
  intros l. subst l. split.
  - rewrite agent_summary_cons. do 3 eexists.
    split; [reflexivity|]. split; [reflexivity|]. split; [reflexivity|].
    split; [split|split].
    + apply count_distinct_pos.
    + rewrite <- (length_map Agent.sku (a :: t)). apply count_distinct_le.
    + rewrite <- (length_map Agent.hts (a :: t)). apply count_distinct_filter_le.
    + rewrite <- (length_map Agent.country_of_origin (a :: t)).
      apply count_distinct_filter_le.
  - destruct (Agent.aggregate_by_sku (a :: t)) as [|b u] eqn:E;
      [now destruct (agent_aggregate_nonempty a t)|].
    rewrite agent_summary_cons. rewrite <- E.
    cbn [dict_get String.eqb Ascii.eqb Bool.eqb]. do 2 f_equal.
    rewrite agent_aggregate_skus, agent_aggregate_length.
    unfold count_distinct.
    now rewrite (nodup_fixed_point string_dec (group_keys_NoDup _)).
Qed.

(** * The further properties at the samples *)

(** X3 at the sample row with quantity "N/A", at the sample row with
    quantity 10^400, and at a row of one cell. *)
Lemma X3_extraction_witness :
  Agent.extract_item float_of_digits str_of_integer 2 sample_bad_quantity_row
                     (CStr "XYZ-9")
  = Ok sample_bad_quantity_item
  /\ Agent.extract_item float_of_digits str_of_integer 0 sample_huge_quantity_row
                        (CStr "BIG-1")
     = Raise OverflowError
  /\ Agent.extract_item float_of_digits str_of_integer 0 [CNaN] (CStr "XYZ-9")
     = Raise IndexError.
Proof.
  split; [|split].
  - rewrite (proj1 (X3_extraction_by_row_width float_of_digits str_of_integer 2
                      sample_bad_quantity_row (CStr "XYZ-9")));
      [reflexivity|simpl; lia|reflexivity].
  - apply (proj1 (proj2 (X3_extraction_by_row_width float_of_digits str_of_integer 0
                           sample_huge_quantity_row (CStr "BIG-1"))));
      [simpl; lia|reflexivity].
  - apply (proj2 (proj2 (X3_extraction_by_row_width float_of_digits str_of_integer 0
                           [CNaN] (CStr "XYZ-9")))).
    simpl. lia.
Defined.

(** X4 at the sample frame: the items are on lines 1, 3 and 4 of 4. *)
Lemma X4_line_numbers_witness :
  StronglySorted lt (map Agent.line_number (Agent.items sample_envelope))
  /\ Forall (fun it => 1 <= Agent.line_number it <= 4) (Agent.items sample_envelope).
Proof.
  apply (proj1 (X4_line_numbers_increase float_of_digits str_of_integer
                  (Agent.__init__ None) sample_frame false sample_envelope
                  eq_refl)).
  reflexivity.
Defined.

(** X5 at the sample frame. *)
Lemma X5_errors_witness :
  Forall (error_ok (Agent.__init__ None) (Agent.items sample_envelope))
         (Agent.errors sample_envelope).
Proof.
  apply (proj1 (X5_errors_refer_to_items float_of_digits str_of_integer
                  (Agent.__init__ None) sample_frame sample_envelope eq_refl)).
Defined.

(** X6 at the sample frame: the entry of line 3. *)
Lemma X6_missing_sku_witness : ~ In "Missing SKU" ["Missing quantity"].
Proof.
  apply (X6_missing_sku_never_reported float_of_digits str_of_integer
           (Agent.__init__ None) sample_frame false sample_envelope 3
           ["Missing quantity"] eq_refl).
  left. reflexivity.
Defined.

(** X7 at the sample items: the merged "A-100" record. *)
Lemma X7_aggregated_record_witness :
  Agent.quantity sample_out_A
  = Some (Agent.agg_sum Agent.quantity (Agent.group sample_items "A-100")).
Proof.
  apply (proj2 (X7_aggregated_record sample_items sample_out_A
                  (or_introl eq_refl))).
Defined.

(** X10 at the sample items and their reversal. *)
Lemma X10_order_witness :
  map Agent.sku (Agent.aggregate_by_sku sample_items)
  = map Agent.sku (Agent.aggregate_by_sku (rev sample_items))
  /\ map Agent.line_number (Agent.aggregate_by_sku sample_items)
     = map Agent.line_number (Agent.aggregate_by_sku (rev sample_items))
  /\ (forall k, Permutation (Agent.group sample_items k)
                            (Agent.group (rev sample_items) k)).
Proof.
  apply X10_aggregation_order_independent. apply Permutation_rev.
Defined.

(** X12 at the sample frame. *)
Lemma X12_parsers_witness :
  Parser.parse_acuity_invoice float_of_digits str_of_integer (Ok sample_frame) false
  = Ok (map to_parser_item (Agent.items sample_envelope)).
Proof.
  apply (proj2 (X12_parsers_agree float_of_digits str_of_integer
                  (Agent.__init__ None) (Ok sample_frame) false
                  (map to_parser_item (Agent.items sample_envelope))
                  (or_introl eq_refl))).
  exists sample_envelope. split; [reflexivity|]. split; reflexivity.
Defined.

(** X13 at the sample frame, whose rows have 43 cells. *)
Lemma X13_wide_sheet_witness :
  exists r,
    snd (Agent.parse_file float_of_digits str_of_integer (Agent.__init__ None)
                          (Ok sample_frame) false)
    = Agent.Success r
    /\ Agent.items r
       = map (row_item float_of_digits str_of_integer)
             (filter (gives_item str_of_integer) (iterrows sample_frame))
    /\ count_parse_errors (Agent.errors r)
       = List.length (filter (gives_overflow str_of_integer) (iterrows sample_frame)).
Proof.
  apply (proj2 (proj2 (X13_wide_sheet_parses float_of_digits str_of_integer
                         (Agent.__init__ None) sample_frame false
                         ltac:(repeat constructor)))).
  left. reflexivity.
Defined.

(** X14 at the sample frame cut to 25 columns: three rows have a SKU. *)
Lemma X14_narrow_sheet_witness :
  snd (Agent.parse_file float_of_digits str_of_integer (Agent.__init__ None)
                        (Ok sample_narrow_frame) false)
  = Agent.Success
      {| Agent.items := [];
         Agent.r_metadata := [];
         Agent.summary := [];
         Agent.errors :=
           [ ParseError 1 "Parse error: single positional indexer is out-of-bounds";
             ParseError 3 "Parse error: single positional indexer is out-of-bounds";
             ParseError 4 "Parse error: single positional indexer is out-of-bounds" ];
         Agent.aggregated := false |}.
Proof.
  rewrite (X14_narrow_sheet_gives_only_parse_errors float_of_digits str_of_integer
             (Agent.__init__ None) sample_narrow_frame false).
  - reflexivity.
  - repeat constructor; simpl; lia.
  - reflexivity.
Defined.


(** X16 at the sample frame with [max_items = -1]. *)
Lemma X16_negative_limit_witness :
  result_items
    (snd (Agent.parse_file float_of_digits str_of_integer
                           (Agent.__init__ (Some (sample_config (-1))))
                           (Ok sample_frame) false))
  = [].
Proof.
  rewrite (X16_negative_limit_reads_nothing float_of_digits str_of_integer
             (Agent.__init__ (Some (sample_config (-1)))) (-1) sample_frame false
             eq_refl eq_refl).
  reflexivity.
Defined.

(** * The export table *)

Section ExportTable.

Lemma existsb_eqb_In (k : string) (l : list string) :
  existsb (String.eqb k) l = true <-> In k l.
Proof.
  rewrite existsb_exists. split.
  - intros (x & Hx & E). apply String.eqb_eq in E. now subst x.
  - intros H. exists k. split; [exact H|apply String.eqb_refl].
Qed.

Lemma unique_keys_seen (seen ks : list string) :
  (forall k, In k ks -> In k seen) -> UI.unique_keys seen ks = [].
Proof.
  induction ks as [|k t IH]; simpl; intros H; [reflexivity|].
  rewrite (proj2 (existsb_eqb_In k seen)) by (apply H; now left).
  apply IH. intros k' Hk'. apply H. now right.
Qed.

Lemma unique_keys_app_seen (l1 l2 : list string) :
  forall seen,
    (forall k, In k l2 -> In k l1 \/ In k seen) ->
    UI.unique_keys seen (l1 ++ l2) = UI.unique_keys seen l1.
Proof.
  induction l1 as [|a l1 IH]; intros seen H; simpl.
  - apply unique_keys_seen. intros k Hk. destruct (H k Hk) as [[]|Hs]. exact Hs.
  - destruct (existsb (String.eqb a) seen) eqn:E.
    + apply IH. intros k Hk. destruct (H k Hk) as [[<-|H1]|H2].
      * right. now apply existsb_eqb_In.
      * now left.
      * now right.
    + f_equal. apply IH. intros k Hk. destruct (H k Hk) as [[<-|H1]|H2].
      * right. now left.
      * now left.
      * right. now right.
Qed.

Lemma to_dict_keys (it : Parser.LineItem) :
  map fst (to_dict it) = UI.EXPORT_COLUMN_ORDER.
Proof. reflexivity. Qed.

Lemma parser_items_keys (l : list Parser.LineItem) (k : string) :
  In k (flat_map (map fst) (map to_dict l)) -> In k UI.EXPORT_COLUMN_ORDER.
Proof.
  induction l as [|a l IH]; cbn [map flat_map]; [intros []|].
  intros H. apply in_app_or in H. destruct H as [H|H]; [|now apply IH].
  now rewrite to_dict_keys in H.
Qed.

Lemma parser_items_columns (a : Parser.LineItem) (t : list Parser.LineItem) :
  UI.columns (UI.DataFrame_of (map to_dict (a :: t))) = UI.EXPORT_COLUMN_ORDER.
Proof.
  unfold UI.DataFrame_of. cbn [UI.columns map flat_map].
  rewrite to_dict_keys, unique_keys_app_seen; [reflexivity|].
  intros k Hk. left. now apply parser_items_keys in Hk.
Qed.

End ExportTable.

(** X21.  Preparing the export of parsed items.  For a list of parser
    items that is not empty the table has the fifteen template columns,
    in template order and under their display names, and one row per
    item, in order, holding the item's fields; for no item at all it has
    no column and no row. *)
Theorem X21_export_table_of_parsed_items
        (a : Parser.LineItem) (t : list Parser.LineItem) :
  UI._prepare_export_df (map to_dict (a :: t))
  = {| UI.columns := export_header; UI.rows := map item_values (a :: t) |}
  /\ UI._prepare_export_df [] = {| UI.columns := []; UI.rows := [] |}.
Proof.
  split; [|reflexivity].
  pose proof (parser_items_columns a t) as Hc.
  unfold UI.DataFrame_of in Hc. cbn [UI.columns] in Hc.
  unfold UI._prepare_export_df, UI.rename, UI.select, UI.DataFrame_of.
  cbv zeta. cbn [UI.columns UI.rows]. rewrite !Hc.
  f_equal. rewrite !map_map. apply map_ext. intros it. reflexivity.
Qed.

(** * Validation rules *)


